(** * parcels.nemo_grid: the NEMO staggered-grid store, its reader and its writer

    A shallow embedding of [src/parcels/nemo_grid.py] (class [NEMOGrid]) and
    of the parts of numpy, netCDF4 and scipy.interpolate the class calls,
    followed by the properties stated about it. *)

From Stdlib Require Import ZArith QArith Lia Lqa List String.
From Stdlib Require Import Floats.SpecFloat.
From stdpp Require Import base option list gmap strings.

Local Open Scope Z_scope.
Local Open Scope nat_scope.

(** ** Floating-point values

    Array elements are IEEE 754 values, as in [Floats.SpecFloat]: zeros,
    infinities, NaN and finite [m * 2^e]. *)

Definition float := spec_float.

Definition isnan (f : float) : bool :=
  match f with S754_nan => true | _ => false end.

(** The Python literal [0.] *)
Definition fzero : float := S754_zero false.

Definition is_finite (f : float) : bool :=
  match f with S754_zero _ | S754_finite _ _ _ => true | _ => false end.

(** Element types of file variables. *)
Inductive dtype := float32 | float64.

(** Conversion of an in-memory (binary64) value to the element type of a
    file variable: round to nearest even in binary32 for [np.float32]. *)
Definition cast (t : dtype) (f : float) : float :=
  match t, f with
  | float32, S754_finite s m e => binary_round 24 128 s m e
  | _, _ => f
  end.

(** The real number a finite value stands for; [None] for NaN and the
    infinities. *)
Definition to_Q (f : float) : option Q :=
  match f with
  | S754_zero _ => Some 0%Q
  | S754_finite s m e =>
      Some ((if s then Z.neg m # 1 else Z.pos m # 1) * Qpower (2 # 1) e)%Q
  | _ => None
  end.

(** ** Multi-dimensional indexing (C order) *)

Definition prod_list (l : list nat) : nat := foldr Nat.mul 1 l.

(** Offset of a multi-index in the flat buffer of an array of shape [shp]. *)
Fixpoint ravel (shp idx : list nat) : nat :=
  match shp, idx with
  | _ :: shp', i :: idx' => i * prod_list shp' + ravel shp' idx'
  | _, _ => 0
  end.

(** Multi-index of the [k]-th element of an array of shape [shp]. *)
Fixpoint unravel (shp : list nat) (k : nat) : list nat :=
  match shp with
  | [] => []
  | _ :: shp' => k / prod_list shp' :: unravel shp' (k mod prod_list shp')
  end.

(** An index expression: an integer ([a[i]], negative counts from the end)
    or a full slice ([a[:]]). *)
Inductive selector := Idx (i : Z) | All.

(** Python's normalisation of an integer index against an axis of length
    [n]. *)
Definition norm_index (n : nat) (i : Z) : option nat :=
  let i' := if (i <? 0)%Z then (i + Z.of_nat n)%Z else i in
  if ((0 <=? i') && (i' <? Z.of_nat n))%Z then Some (Z.to_nat i') else None.

(** Resolution of an index expression against a shape: per axis, the fixed
    position or [None] for a whole axis.  Missing trailing selectors are full
    slices; too many selectors or an index out of range give [None]
    (IndexError). *)
Fixpoint axes (sel : list selector) (shp : list nat) : option (list (option nat)) :=
  match shp with
  | [] => match sel with [] => Some [] | _ :: _ => None end
  | n :: shp' =>
      match sel with
      | [] => ax ← axes [] shp'; Some (None :: ax)
      | All :: sel' => ax ← axes sel' shp'; Some (None :: ax)
      | Idx i :: sel' =>
          k ← norm_index n i; ax ← axes sel' shp'; Some (Some k :: ax)
      end
  end.

(** Shape of the selected sub-array: the extents of the sliced axes. *)
Fixpoint sub_shape (ax : list (option nat)) (shp : list nat) : list nat :=
  match ax, shp with
  | Some _ :: ax', _ :: shp' => sub_shape ax' shp'
  | None :: ax', n :: shp' => n :: sub_shape ax' shp'
  | _, _ => []
  end.

(** Position in the whole array of the element at multi-index [sub] of the
    selected sub-array. *)
Fixpoint embed (ax : list (option nat)) (sub : list nat) : list nat :=
  match ax with
  | [] => []
  | Some k :: ax' => k :: embed ax' sub
  | None :: ax' =>
      match sub with
      | i :: sub' => i :: embed ax' sub'
      | [] => 0 :: embed ax' []
      end
  end.

(** Conversely: the multi-index inside the selected sub-array (of shape
    [sshp]) of position [idx] of the whole array, if [idx] lies in it. *)
Fixpoint project (ax : list (option nat)) (sshp idx : list nat) : option (list nat) :=
  match ax, idx with
  | [], [] => Some []
  | Some k :: ax', i :: idx' =>
      if decide (i = k) then project ax' sshp idx' else None
  | None :: ax', i :: idx' =>
      match sshp with
      | n :: sshp' =>
          if decide (i < n) then sub ← project ax' sshp' idx'; Some (i :: sub)
          else None
      | [] => None
      end
  | _, _ => None
  end.

(** ** Exceptions

    The failures of the library calls, named after the error taxonomy of the
    specification where it has a name for them and after the Python
    exception otherwise. *)

Inductive exn :=
| MissingFileError        (* opening an absent file for reading *)
| MissingVariableError    (* [dset[name]] with no such variable *)
| DimensionMismatchError  (* a value whose shape is not the shape of the slab *)
| IndexError              (* index out of range, too many indices *)
| AttributeError          (* attribute of [None] *)
| TypeError               (* [None] where an array is expected *)
| ValueError              (* argument rejected by a library call *)
| RuntimeError.           (* name in use, unknown handle *)

Inductive result (A : Type) : Type :=
| Ok (a : A)
| Raise (e : exn).
Arguments Ok {A} a.
Arguments Raise {A} e.

#[global] Instance result_ret : MRet result := fun A a => Ok a.
#[global] Instance result_bind : MBind result := fun A B k r =>
  match r with Ok a => k a | Raise e => Raise e end.

Definition is_ok {A} (r : result A) : bool :=
  match r with Ok _ => true | Raise _ => false end.

(** ** numpy arrays *)

Module np.

(** An [ndarray]: its shape and its elements in C order. *)
Record ndarray := NdArray { shape : list nat; data : list float }.

Definition size (a : ndarray) : nat := prod_list (shape a).

(** A record is an array when the buffer has one element per position. *)
Definition wf (a : ndarray) : bool := bool_decide (length (data a) = size a).

Definition item (a : ndarray) (idx : list nat) : float :=
  nth (ravel (shape a) idx) (data a) S754_nan.

(** [a[sel]] *)
Definition getitem (a : ndarray) (sel : list selector) : result ndarray :=
  match axes sel (shape a) with
  | None => Raise IndexError
  | Some ax =>
      let s := sub_shape ax (shape a) in
      Ok {| shape := s;
            data := map (fun k => item a (embed ax (unravel s k)))
                        (seq 0 (prod_list s)) |}
  end.

(** [np.transpose(a)]: the axes reversed. *)
Definition transpose (a : ndarray) : ndarray :=
  let shp := rev (shape a) in
  {| shape := shp;
     data := map (fun k => item a (rev (unravel shp k))) (seq 0 (prod_list shp)) |}.

(** [a[np.isnan(a)] = 0.] *)
Definition nan_to_zero (a : ndarray) : ndarray :=
  {| shape := shape a;
     data := map (fun v => if isnan v then fzero else v) (data a) |}.

End np.

(** ** netCDF4 datasets

    The array-file library, as far as [NEMOGrid] uses it: named dimensions,
    named variables over dimensions, slab reads and writes by index, scalar or
    array attributes on variables. *)

Module nc.

(** A dimension as declared ([dim_size], [0] standing for unlimited, as
    in the file format) and its current length. *)
Record Dimension := { dim_size : Z; dim_len : nat }.

Definition isunlimited (d : Dimension) : bool := bool_decide (dim_size d = 0%Z).

(** A netCDF4 [Variable] ([Variable] is a reserved word here). *)
Record Var := {
  datatype : dtype;
  var_dims : list string;
  cells : list nat -> float;
  ncattrs : gmap string np.ndarray
}.

(** [puts] is the record of the slab assignments the dataset received,
    oldest first. *)
Record Dataset := {
  dimensions : gmap string Dimension;
  variables : gmap string Var;
  puts : list (string * list selector)
}.

Definition empty : Dataset :=
  {| dimensions := ∅; variables := ∅; puts := [] |}.

(** The default fill value of never written cells (NC_FILL_FLOAT). *)
Definition fill_value : float := S754_finite false 15 119.

Definition dims_of (ds : Dataset) (v : Var) : list Dimension :=
  map (fun d => default {| dim_size := 0; dim_len := 0 |} (dimensions ds !! d))
      (var_dims v).

Definition var_shape (ds : Dataset) (v : Var) : list nat :=
  map dim_len (dims_of ds v).

(** [dset.createDimension(name, size)]: [None] and [0] declare an
    unlimited dimension, a negative size is refused. *)
Definition createDimension (name : string) (size : option Z) (ds : Dataset)
  : result Dataset :=
  match dimensions ds !! name with
  | Some _ => Raise RuntimeError
  | None =>
      let n := default 0%Z size in
      if (n <? 0)%Z then Raise ValueError
      else Ok {| dimensions :=
                   <[name := {| dim_size := n; dim_len := Z.to_nat n |}]> (dimensions ds);
                 variables := variables ds;
                 puts := puts ds |}
  end.

(** [dset.createVariable(name, datatype, dimensions)] *)
Definition createVariable (name : string) (t : dtype) (dims : list string)
    (ds : Dataset) : result Dataset :=
  match variables ds !! name with
  | Some _ => Raise RuntimeError
  | None =>
      if forallb (fun d => bool_decide (is_Some (dimensions ds !! d))) dims
      then Ok {| dimensions := dimensions ds;
                 variables :=
                   <[name := {| datatype := t; var_dims := dims;
                                cells := fun _ => fill_value;
                                ncattrs := ∅ |}]> (variables ds);
                 puts := puts ds |}
      else Raise ValueError
  end.

(** [var[sel]]: the selected slab as an array. *)
Definition getitem (name : string) (sel : list selector) (ds : Dataset)
  : result np.ndarray :=
  match variables ds !! name with
  | None => Raise MissingVariableError
  | Some v =>
      let shp := var_shape ds v in
      match axes sel shp with
      | None => Raise IndexError
      | Some ax =>
          let s := sub_shape ax shp in
          Ok {| np.shape := s;
                np.data := map (fun k => cells v (embed ax (unravel s k)))
                               (seq 0 (prod_list s)) |}
      end
  end.

(** Resolution of the target of [var[sel] = value] for a value of shape
    [vshp]: the axes, and the lengths of the dimensions after the
    assignment.  An integer index must lie inside a fixed dimension and may
    extend an unlimited one; along a sliced axis the value must have the
    length of a fixed dimension, and at least the current length of an
    unlimited one, which grows to it.  No broadcasting. *)
Fixpoint put_axes (sel : list selector) (dims : list Dimension) (vshp : list nat)
  : result (list (option nat) * list nat) :=
  match dims with
  | [] =>
      match sel, vshp with
      | [], [] => Ok ([], [])
      | _ :: _, _ => Raise IndexError
      | [], _ :: _ => Raise DimensionMismatchError
      end
  | d :: dims' =>
      match sel with
      | Idx i :: sel' =>
          match (if isunlimited d && (0 <=? i)%Z then Some (Z.to_nat i)
                 else norm_index (dim_len d) i) with
          | None => Raise IndexError
          | Some k =>
              '(ax, lens) ← put_axes sel' dims' vshp;
              Ok (Some k :: ax, max (dim_len d) (S k) :: lens)
          end
      | _ =>
          match vshp with
          | [] => Raise DimensionMismatchError
          | n :: vshp' =>
              if (if isunlimited d then bool_decide (dim_len d <= n)
                  else bool_decide (n = dim_len d))
              then '(ax, lens) ← put_axes (tail sel) dims' vshp';
                   Ok (None :: ax, n :: lens)
              else Raise DimensionMismatchError
          end
      end
  end.

(** The dimensions [names] set to the lengths [lens]. *)
Fixpoint grow (names : list string) (lens : list nat)
    (dims : gmap string Dimension) : gmap string Dimension :=
  match names, lens with
  | d :: names', n :: lens' =>
      grow names' lens'
        (alter (fun dim => {| dim_size := dim_size dim; dim_len := n |}) d dims)
  | _, _ => dims
  end.

(** [var[sel] = value]: the value, converted to the variable's element
    type, is stored in the slab. *)
Definition setitem (name : string) (sel : list selector) (value : np.ndarray)
    (ds : Dataset) : result Dataset :=
  match variables ds !! name with
  | None => Raise MissingVariableError
  | Some v =>
      if negb (np.wf value) then Raise TypeError else
      '(ax, lens) ← put_axes sel (dims_of ds v) (np.shape value);
      Ok {| dimensions := grow (var_dims v) lens (dimensions ds);
            variables :=
              <[name := {| datatype := datatype v; var_dims := var_dims v;
                           cells := fun idx =>
                             match project ax (np.shape value) idx with
                             | Some sub => cast (datatype v) (np.item value sub)
                             | None => cells v idx
                             end;
                           ncattrs := ncattrs v |}]> (variables ds);
            puts := puts ds ++ [(name, sel)] |}
  end.

(** [var.attr = value] *)
Definition setncattr (name attr : string) (value : np.ndarray) (ds : Dataset)
  : result Dataset :=
  match variables ds !! name with
  | None => Raise MissingVariableError
  | Some v =>
      Ok {| dimensions := dimensions ds;
            variables :=
              <[name := {| datatype := datatype v; var_dims := var_dims v;
                           cells := cells v;
                           ncattrs := <[attr := value]> (ncattrs v) |}]>
                (variables ds);
            puts := puts ds |}
  end.

End nc.

(** ** scipy.interpolate.RectBivariateSpline, degree 1

    The interpolation primitive: from two strictly increasing coordinate
    vectors and a matching grid of values, the piecewise bilinear surface
    through the values.  The surface is evaluated in exact rational
    arithmetic, [None] standing for a result that is not a finite number;
    the rounding inside FITPACK is not modelled. *)

Module scipy.

Record RectBivariateSpline := {
  tx : list Q;            (* knots along the first axis *)
  ty : list Q;            (* knots along the second axis *)
  c : np.ndarray          (* values at the knots *)
}.

Fixpoint increasing (l : list Q) : bool :=
  match l with
  | a :: (b :: _) as l' => negb (Qle_bool b a) && increasing l'
  | _ => true
  end.

(** [RectBivariateSpline(x, y, z, kx=1, ky=1)] *)
Definition build (x y z : np.ndarray) : result RectBivariateSpline :=
  match mapM to_Q (np.data x), mapM to_Q (np.data y) with
  | Some xs, Some ys =>
      if increasing xs && increasing ys
         && bool_decide (2 <= length xs) && bool_decide (2 <= length ys)
         && bool_decide (np.shape z = [length xs; length ys]) && np.wf z
      then Ok {| tx := xs; ty := ys; c := z |}
      else Raise ValueError
  | _, _ => Raise ValueError
  end.

(** Index of the knot interval used at [x]: the last interval whose left
    end is at most [x], the first one to the left of all knots. *)
Fixpoint locate (xs : list Q) (x : Q) : nat :=
  match xs with
  | _ :: ((x1 :: _ :: _) as xs') =>
      if Qle_bool x1 x then S (locate xs' x) else 0
  | _ => 0
  end.

(** Points outside the knots are evaluated on the boundary. *)
Definition clamp (xs : list Q) (x : Q) : Q :=
  match xs with
  | [] => x
  | lo :: _ =>
      if Qle_bool x lo then lo
      else if Qle_bool (List.last xs lo) x then List.last xs lo else x
  end.

Definition node (s : RectBivariateSpline) (i j : nat) : option Q :=
  to_Q (np.item (c s) [i; j]).

(** [s.ev(x, y)] *)
Definition ev (s : RectBivariateSpline) (x y : Q) : option Q :=
  let x := clamp (tx s) x in
  let y := clamp (ty s) y in
  let k := locate (tx s) x in
  let l := locate (ty s) y in
  x0 ← tx s !! k; x1 ← tx s !! S k;
  y0 ← ty s !! l; y1 ← ty s !! S l;
  z00 ← node s k l; z01 ← node s k (S l);
  z10 ← node s (S k) l; z11 ← node s (S k) (S l);
  let t := ((x - x0) / (x1 - x0))%Q in
  let u := ((y - y0) / (y1 - y0))%Q in
  Some ((1 - t) * (1 - u) * z00 + (1 - t) * u * z01
        + t * (1 - u) * z10 + t * u * z11)%Q.

End scipy.

(** ** Python values and the program state *)

(** Particles are tracked by reference. *)
Definition Particle := nat.

(** What an array attribute of a grid holds: [None] (the class default) or
    an array.  A variable of a dataset opened for reading
    ([self.lon_u = self.dset_u['nav_lon']]) is held as the array of its
    values: the dataset stays open, read-only, for the life of the object. *)
Inductive pyobj :=
| PNone
| PArray (a : np.ndarray).

Module py.

(** The array a value stands for where a call needs one. *)
Definition array (o : pyobj) : result np.ndarray :=
  match o with
  | PNone => Raise TypeError
  | PArray a => Ok a
  end.

(** [o[sel]] *)
Definition getitem (o : pyobj) (sel : list selector) : result np.ndarray :=
  match o with
  | PNone => Raise TypeError
  | PArray a => np.getitem a sel
  end.

(** [o.size] *)
Definition size (o : pyobj) : result nat :=
  match o with
  | PNone => Raise AttributeError
  | PArray a => Ok (np.size a)
  end.

End py.

(** Instance attributes of a [NEMOGrid] object.  An attribute the instance
    never assigned reads as the class default, which [defaults] gives. *)
Module NEMOGrid.

Record t := mk {
  x : Z;
  y : Z;
  depth : pyobj;
  time_counter : pyobj;
  lon_u : pyobj;
  lat_u : pyobj;
  lon_v : pyobj;
  lat_v : pyobj;
  U : pyobj;
  V : pyobj;
  dset_u : option string;
  dset_v : option string;
  interp_u : option scipy.RectBivariateSpline;
  interp_v : option scipy.RectBivariateSpline
}.

Definition defaults : t :=
  mk 0 0 PNone PNone PNone PNone PNone PNone PNone PNone None None None None.

Definition set_lon_u v g :=
  mk (x g) (y g) (depth g) (time_counter g) v (lat_u g) (lon_v g) (lat_v g)
     (U g) (V g) (dset_u g) (dset_v g) (interp_u g) (interp_v g).
Definition set_lat_u v g :=
  mk (x g) (y g) (depth g) (time_counter g) (lon_u g) v (lon_v g) (lat_v g)
     (U g) (V g) (dset_u g) (dset_v g) (interp_u g) (interp_v g).
Definition set_lon_v v g :=
  mk (x g) (y g) (depth g) (time_counter g) (lon_u g) (lat_u g) v (lat_v g)
     (U g) (V g) (dset_u g) (dset_v g) (interp_u g) (interp_v g).
Definition set_lat_v v g :=
  mk (x g) (y g) (depth g) (time_counter g) (lon_u g) (lat_u g) (lon_v g) v
     (U g) (V g) (dset_u g) (dset_v g) (interp_u g) (interp_v g).
Definition set_U v g :=
  mk (x g) (y g) (depth g) (time_counter g) (lon_u g) (lat_u g) (lon_v g)
     (lat_v g) v (V g) (dset_u g) (dset_v g) (interp_u g) (interp_v g).
Definition set_V v g :=
  mk (x g) (y g) (depth g) (time_counter g) (lon_u g) (lat_u g) (lon_v g)
     (lat_v g) (U g) v (dset_u g) (dset_v g) (interp_u g) (interp_v g).
Definition set_dset_u v g :=
  mk (x g) (y g) (depth g) (time_counter g) (lon_u g) (lat_u g) (lon_v g)
     (lat_v g) (U g) (V g) v (dset_v g) (interp_u g) (interp_v g).
Definition set_dset_v v g :=
  mk (x g) (y g) (depth g) (time_counter g) (lon_u g) (lat_u g) (lon_v g)
     (lat_v g) (U g) (V g) (dset_u g) v (interp_u g) (interp_v g).
Definition set_interp_u v g :=
  mk (x g) (y g) (depth g) (time_counter g) (lon_u g) (lat_u g) (lon_v g)
     (lat_v g) (U g) (V g) (dset_u g) (dset_v g) v (interp_v g).
Definition set_interp_v v g :=
  mk (x g) (y g) (depth g) (time_counter g) (lon_u g) (lat_u g) (lon_v g)
     (lat_v g) (U g) (V g) (dset_u g) (dset_v g) (interp_u g) v.

End NEMOGrid.

(** The state a method runs in.  [_particles] is the list the class body
    creates once ([_particles = []] at class level): no method ever binds
    the attribute on an instance, so [self._particles] is this one list for
    every instance.  [heap] holds the instances, an object being known by its
    position; [files] is the file system, by path. *)
Record World := mkWorld {
  _particles : list Particle;
  heap : list NEMOGrid.t;
  files : gmap string nc.Dataset;
  stdout : list string
}.

Definition oid := nat.

(** ** Computations: state and exceptions *)

Definition M (A : Type) : Type := World -> result A * World.

#[global] Instance M_ret : MRet M := fun A a w => (Ok a, w).
#[global] Instance M_bind : MBind M := fun A B k m w =>
  match m w with
  | (Ok a, w') => k a w'
  | (Raise e, w') => (Raise e, w')
  end.

Definition raise {A} (e : exn) : M A := fun w => (Raise e, w).

Definition lift {A} (r : result A) : M A := fun w => (r, w).

(** [self.f], read *)
Definition attr {A} (self : oid) (f : NEMOGrid.t -> A) : M A := fun w =>
  match heap w !! self with
  | Some g => (Ok (f g), w)
  | None => (Raise RuntimeError, w)
  end.

(** [self.f = v], as the update [upd] of the instance *)
Definition setattr (self : oid) (upd : NEMOGrid.t -> NEMOGrid.t) : M unit :=
  fun w =>
    match heap w !! self with
    | Some g =>
        (Ok tt, mkWorld (_particles w) (<[self := upd g]> (heap w)) (files w) (stdout w))
    | None => (Raise RuntimeError, w)
    end.

Definition print (line : string) : M unit := fun w =>
  (Ok tt, mkWorld (_particles w) (heap w) (files w) (stdout w ++ [line])).

(** [Dataset(path, 'w')]: the file is created, or emptied, and the handle is
    its path.  Every path of the model can be written. *)
Definition Dataset_w (path : string) : M string := fun w =>
  (Ok path, mkWorld (_particles w) (heap w) (<[path := nc.empty]> (files w)) (stdout w)).

(** [Dataset(path, 'r')] *)
Definition Dataset_r (path : string) : M string := fun w =>
  match files w !! path with
  | Some _ => (Ok path, w)
  | None => (Raise MissingFileError, w)
  end.

(** A call that changes the dataset behind handle [h]. *)
Definition on_file (h : string) (op : nc.Dataset -> result nc.Dataset) : M unit :=
  fun w =>
    match files w !! h with
    | None => (Raise RuntimeError, w)
    | Some ds =>
        match op ds with
        | Ok ds' =>
            (Ok tt, mkWorld (_particles w) (heap w) (<[h := ds']> (files w)) (stdout w))
        | Raise e => (Raise e, w)
        end
    end.

(** A call that reads the dataset behind handle [h]. *)
Definition read_file {A} (h : string) (op : nc.Dataset -> result A) : M A :=
  fun w =>
    match files w !! h with
    | None => (Raise RuntimeError, w)
    | Some ds => (op ds, w)
    end.

(** [dset.close()] *)
Definition close (h : string) : M unit := on_file h Ok.

(** [dset[name]] for a dataset attribute [f] of [self] *)
Definition variable_of (self : oid) (f : NEMOGrid.t -> option string)
    (name : string) : M pyobj :=
  d ← attr self f;
  match d with
  | None => raise AttributeError
  | Some h => a ← read_file h (nc.getitem name []); mret (PArray a)
  end.

Definition as_array (o : pyobj) : M np.ndarray := lift (py.array o).

Definition getitem (o : pyobj) (sel : list selector) : M np.ndarray :=
  lift (py.getitem o sel).

Definition size_of (o : pyobj) : M nat := lift (py.size o).

(** [range(n)] *)
Definition range (n : Z) : list Z := map Z.of_nat (seq 0 (Z.to_nat n)).

(** [for a in l: body] *)
Fixpoint for_ {A} (l : list A) (body : A -> M unit) : M unit :=
  match l with
  | [] => mret tt
  | a :: l' => body a ;; for_ l' body
  end.

(** [path.local(filename)]: paths are taken as already absolute. *)
Definition path_local (filename : string) : string := filename.

(** ** The class [NEMOGrid] *)

(** [NEMOGrid.__init__(self, filename=None)] *)
Definition __init__ (self : oid) (filename : option string) : M unit :=
  match filename with
  | Some filename =>
      if bool_decide (filename = "") then mret tt else
      d ← Dataset_r (filename +:+ "_U"); setattr self (NEMOGrid.set_dset_u (Some d)) ;;
      d ← Dataset_r (filename +:+ "_V"); setattr self (NEMOGrid.set_dset_v (Some d)) ;;
      (* Get U, V and flow-specific lat/lon from netCF file *)
      v ← variable_of self NEMOGrid.dset_u "nav_lon"; setattr self (NEMOGrid.set_lon_u v) ;;
      v ← variable_of self NEMOGrid.dset_u "nav_lat"; setattr self (NEMOGrid.set_lat_u v) ;;
      v ← variable_of self NEMOGrid.dset_v "nav_lon"; setattr self (NEMOGrid.set_lon_v v) ;;
      v ← variable_of self NEMOGrid.dset_v "nav_lat"; setattr self (NEMOGrid.set_lat_v v) ;;
      v ← variable_of self NEMOGrid.dset_u "vozocrtx";
      a ← getitem v [Idx 0; Idx 0; All; All]; setattr self (NEMOGrid.set_U (PArray a)) ;;
      v ← variable_of self NEMOGrid.dset_v "vomecrty";
      a ← getitem v [Idx 0; Idx 0; All; All]; setattr self (NEMOGrid.set_V (PArray a)) ;;
      (* Hack around the fact that NaN values propagate in SciPy's interpolators *)
      u ← attr self NEMOGrid.U; a ← as_array u;
      setattr self (NEMOGrid.set_U (PArray (np.nan_to_zero a))) ;;
      v ← attr self NEMOGrid.V; a ← as_array v;
      setattr self (NEMOGrid.set_V (PArray (np.nan_to_zero a))) ;;
      (* Set up linear interpolator spline objects, currently limited to 2D *)
      o ← attr self NEMOGrid.lat_u; lat ← getitem o [All; Idx 0];
      o ← attr self NEMOGrid.lon_u; lon ← getitem o [Idx 0; All];
      o ← attr self NEMOGrid.U; z ← getitem o [All; All];
      s ← lift (scipy.build lat lon z); setattr self (NEMOGrid.set_interp_u (Some s)) ;;
      o ← attr self NEMOGrid.lat_v; lat ← getitem o [All; Idx 0];
      o ← attr self NEMOGrid.lon_v; lon ← getitem o [Idx 0; All];
      o ← attr self NEMOGrid.V; z ← getitem o [All; All];
      s ← lift (scipy.build lat lon z); setattr self (NEMOGrid.set_interp_v (Some s))
  | None => mret tt
  end.

(** [NEMOGrid(filename)]: a new object, then [__init__] on it. *)
Definition new (filename : option string) : M oid := fun w =>
  let self := length (heap w) in
  (__init__ self filename ;; mret self)
    (mkWorld (_particles w) (heap w ++ [NEMOGrid.defaults]) (files w) (stdout w)).

(** [self._particles]: the attribute is found on the class. *)
Definition particles_of (self : oid) (w : World) : list Particle := _particles w.

(** [NEMOGrid.add_particle(self, p)] *)
Definition add_particle (self : oid) (p : Particle) : M unit := fun w =>
  (Ok tt, mkWorld (particles_of self w ++ [p]) (heap w) (files w) (stdout w)).

(** [NEMOGrid.write(self, filename)] *)
Definition write (self : oid) (filename : string) : M unit :=
  let filepath := path_local filename in
  print ("Generating NEMO grid output: " +:+ filepath) ;;

  (* Generate NEMO-style output for U *)
  dset_u ← Dataset_w (filepath +:+ "_U");
  x ← attr self NEMOGrid.x;
  on_file dset_u (nc.createDimension "x" (Some (x - 1)%Z)) ;;
  y ← attr self NEMOGrid.y;
  on_file dset_u (nc.createDimension "y" (Some y)) ;;
  d ← attr self NEMOGrid.depth; n ← size_of d;
  on_file dset_u (nc.createDimension "depthu" (Some (Z.of_nat n))) ;;
  on_file dset_u (nc.createDimension "time_counter" None) ;;

  on_file dset_u (nc.createVariable "nav_lon" float32 ["y"; "x"]) ;;
  on_file dset_u (nc.createVariable "nav_lat" float32 ["y"; "x"]) ;;
  on_file dset_u (nc.createVariable "depthu" float32 ["depthu"]) ;;
  on_file dset_u (nc.createVariable "time_counter" float64 ["time_counter"]) ;;
  on_file dset_u (nc.createVariable "vozocrtx" float32
                    ["time_counter"; "depthu"; "y"; "x"]) ;;

  y ← attr self NEMOGrid.y;
  for_ (range y) (fun y =>
    o ← attr self NEMOGrid.lon_u; v ← as_array o;
    on_file dset_u (nc.setitem "nav_lon" [Idx y; All] v)) ;;
  o ← attr self NEMOGrid.lon_u; v ← getitem o [Idx 0];
  on_file dset_u (nc.setncattr "nav_lon" "valid_min" v) ;;
  o ← attr self NEMOGrid.lon_u; v ← getitem o [Idx (-1)];
  on_file dset_u (nc.setncattr "nav_lon" "valid_max" v) ;;
  x ← attr self NEMOGrid.x;
  for_ (range (x - 1)) (fun x =>
    o ← attr self NEMOGrid.lat_u; v ← as_array o;
    on_file dset_u (nc.setitem "nav_lat" [All; Idx x] v)) ;;
  o ← attr self NEMOGrid.lat_u; v ← getitem o [Idx 0];
  on_file dset_u (nc.setncattr "nav_lat" "valid_min" v) ;;
  o ← attr self NEMOGrid.lat_u; v ← getitem o [Idx (-1)];
  on_file dset_u (nc.setncattr "nav_lat" "valid_max" v) ;;
  o ← attr self NEMOGrid.depth; v ← as_array o;
  on_file dset_u (nc.setitem "depthu" [All] v) ;;
  o ← attr self NEMOGrid.time_counter; v ← as_array o;
  on_file dset_u (nc.setitem "time_counter" [All] v) ;;
  o ← attr self NEMOGrid.U; v ← as_array o;
  on_file dset_u (nc.setitem "vozocrtx" [Idx 0; Idx 0; All; All] (np.transpose v)) ;;
  close dset_u ;;

  (* Generate NEMO-style output for V *)
  dset_v ← Dataset_w (filepath +:+ "_V");
  x ← attr self NEMOGrid.x;
  on_file dset_v (nc.createDimension "x" (Some x)) ;;
  y ← attr self NEMOGrid.y;
  on_file dset_v (nc.createDimension "y" (Some (y - 1)%Z)) ;;
  d ← attr self NEMOGrid.depth; n ← size_of d;
  on_file dset_v (nc.createDimension "depthv" (Some (Z.of_nat n))) ;;
  on_file dset_v (nc.createDimension "time_counter" None) ;;

  on_file dset_v (nc.createVariable "nav_lon" float32 ["y"; "x"]) ;;
  on_file dset_v (nc.createVariable "nav_lat" float32 ["y"; "x"]) ;;
  on_file dset_v (nc.createVariable "depthv" float32 ["depthv"]) ;;
  on_file dset_v (nc.createVariable "time_counter" float64 ["time_counter"]) ;;
  on_file dset_v (nc.createVariable "vomecrty" float32
                    ["time_counter"; "depthv"; "y"; "x"]) ;;

  y ← attr self NEMOGrid.y;
  for_ (range (y - 1)) (fun y =>
    o ← attr self NEMOGrid.lon_v; v ← as_array o;
    on_file dset_v (nc.setitem "nav_lon" [Idx y; All] v)) ;;
  o ← attr self NEMOGrid.lon_u; v ← getitem o [Idx 0];
  on_file dset_v (nc.setncattr "nav_lon" "valid_min" v) ;;
  o ← attr self NEMOGrid.lon_u; v ← getitem o [Idx (-1)];
  on_file dset_v (nc.setncattr "nav_lon" "valid_max" v) ;;
  x ← attr self NEMOGrid.x;
  for_ (range x) (fun x =>
    o ← attr self NEMOGrid.lat_v; v ← as_array o;
    on_file dset_v (nc.setitem "nav_lat" [All; Idx x] v)) ;;
  o ← attr self NEMOGrid.lat_u; v ← getitem o [Idx 0];
  on_file dset_v (nc.setncattr "nav_lat" "valid_min" v) ;;
  o ← attr self NEMOGrid.lat_u; v ← getitem o [Idx (-1)];
  on_file dset_v (nc.setncattr "nav_lat" "valid_max" v) ;;
  o ← attr self NEMOGrid.depth; v ← as_array o;
  on_file dset_v (nc.setitem "depthv" [All] v) ;;
  o ← attr self NEMOGrid.time_counter; v ← as_array o;
  on_file dset_v (nc.setitem "time_counter" [All] v) ;;
  o ← attr self NEMOGrid.V; v ← as_array o;
  on_file dset_v (nc.setitem "vomecrty" [Idx 0; Idx 0; All; All] (np.transpose v)) ;;
  close dset_v.

(** ** The files [write] produces, as functions of the grid

    [write] reads attributes of [self], which it never assigns, and calls
    the library on one dataset at a time.  The dataset each of its two blocks
    builds is therefore a function of the grid alone; [encode] is that
    function, with the same calls in the same order.  [write_outcome] below
    shows that [write] computes it. *)

(** [for a in l: ds = body(a, ds)] *)
Fixpoint forp {A} (l : list A) (body : A -> nc.Dataset -> result nc.Dataset)
    (ds : nc.Dataset) : result nc.Dataset :=
  match l with
  | [] => Ok ds
  | a :: l' => ds' ← body a ds; forp l' body ds'
  end.

(** Dimensions and variables. *)
Definition header (dname fname : string) (nx ny : Z) (depth : pyobj)
  : result nc.Dataset :=
  ds ← nc.createDimension "x" (Some nx) nc.empty;
  ds ← nc.createDimension "y" (Some ny) ds;
  n ← py.size depth;
  ds ← nc.createDimension dname (Some (Z.of_nat n)) ds;
  ds ← nc.createDimension "time_counter" None ds;
  ds ← nc.createVariable "nav_lon" float32 ["y"; "x"] ds;
  ds ← nc.createVariable "nav_lat" float32 ["y"; "x"] ds;
  ds ← nc.createVariable dname float32 [dname] ds;
  ds ← nc.createVariable "time_counter" float64 ["time_counter"] ds;
  nc.createVariable fname float32 ["time_counter"; dname; "y"; "x"] ds.

(** The broadcast of line [line] over the rows [rows] of [nav_lon], with
    the bounds taken from [ref]. *)
Definition lon_rows (rows : list Z) (line ref : pyobj) (ds : nc.Dataset)
  : result nc.Dataset :=
  ds ← forp rows (fun y ds =>
          v ← py.array line; nc.setitem "nav_lon" [Idx y; All] v ds) ds;
  v ← py.getitem ref [Idx 0];
  ds ← nc.setncattr "nav_lon" "valid_min" v ds;
  v ← py.getitem ref [Idx (-1)];
  nc.setncattr "nav_lon" "valid_max" v ds.

(** The broadcast of line [line] over the columns [cols] of [nav_lat]. *)
Definition lat_cols (cols : list Z) (line ref : pyobj) (ds : nc.Dataset)
  : result nc.Dataset :=
  ds ← forp cols (fun x ds =>
          v ← py.array line; nc.setitem "nav_lat" [All; Idx x] v ds) ds;
  v ← py.getitem ref [Idx 0];
  ds ← nc.setncattr "nav_lat" "valid_min" v ds;
  v ← py.getitem ref [Idx (-1)];
  nc.setncattr "nav_lat" "valid_max" v ds.

(** Depth, time and the transposed field. *)
Definition payload (dname fname : string) (depth time field : pyobj)
    (ds : nc.Dataset) : result nc.Dataset :=
  v ← py.array depth;
  ds ← nc.setitem dname [All] v ds;
  v ← py.array time;
  ds ← nc.setitem "time_counter" [All] v ds;
  v ← py.array field;
  nc.setitem fname [Idx 0; Idx 0; All; All] (np.transpose v) ds.

Definition encode (dname fname : string) (nx ny : Z)
    (depth time lon lat lon_ref lat_ref field : pyobj) : result nc.Dataset :=
  ds ← header dname fname nx ny depth;
  ds ← lon_rows (range ny) lon lon_ref ds;
  ds ← lat_cols (range nx) lat lat_ref ds;
  payload dname fname depth time field ds.

Definition encode_U (g : NEMOGrid.t) : result nc.Dataset :=
  encode "depthu" "vozocrtx" (NEMOGrid.x g - 1) (NEMOGrid.y g)
    (NEMOGrid.depth g) (NEMOGrid.time_counter g)
    (NEMOGrid.lon_u g) (NEMOGrid.lat_u g) (NEMOGrid.lon_u g) (NEMOGrid.lat_u g)
    (NEMOGrid.U g).

Definition encode_V (g : NEMOGrid.t) : result nc.Dataset :=
  encode "depthv" "vomecrty" (NEMOGrid.x g) (NEMOGrid.y g - 1)
    (NEMOGrid.depth g) (NEMOGrid.time_counter g)
    (NEMOGrid.lon_v g) (NEMOGrid.lat_v g) (NEMOGrid.lon_u g) (NEMOGrid.lat_u g)
    (NEMOGrid.V g).

(** The state a successful [write] of grid [g] to [filename] leaves. *)
Definition written (g : NEMOGrid.t) (filename : string) (w : World)
  : result World :=
  dsU ← encode_U g;
  dsV ← encode_V g;
  Ok (mkWorld (_particles w) (heap w)
        (<[filename +:+ "_V" := dsV]> (<[filename +:+ "_U" := dsU]> (files w)))
        (stdout w ++ ["Generating NEMO grid output: " +:+ filename])).

(** A run [r] agrees with the pure result [p]: the same final state, or the
    same exception. *)
Definition outcome {A} (r : result A * World) (a : A) (p : result World) : Prop :=
  match p with
  | Ok w' => r = (Ok a, w')
  | Raise e => fst r = Raise e
  end.

(** A computation that leaves the objects and the particle list alone. *)
Definition frames {A} (m : M A) : Prop :=
  forall w, heap (snd (m w)) = heap w /\ _particles (snd (m w)) = _particles w.

(** ** Observations of a dataset *)

(** Observations of a dataset. *)
Definition dsize (ds : nc.Dataset) (d : string) : option Z :=
  nc.dim_size <$> nc.dimensions ds !! d.

Definition dlen (ds : nc.Dataset) (d : string) : option nat :=
  nc.dim_len <$> nc.dimensions ds !! d.


Definition vattr (ds : nc.Dataset) (v a : string) : option np.ndarray :=
  var ← nc.variables ds !! v; nc.ncattrs var !! a.

Definition vdims (ds : nc.Dataset) (v : string) : option (list string) :=
  nc.var_dims <$> nc.variables ds !! v.

Definition vtype (ds : nc.Dataset) (v : string) : option dtype :=
  nc.datatype <$> nc.variables ds !! v.

(** The number of assignments to variable [name] a dataset received. *)
Definition count_puts (name : string) (ds : nc.Dataset) : nat :=
  length (filter (fun p => p.1 = name) (nc.puts ds)).

(** [name in dset.variables] *)
Definition has_variable (name : string) (ds : nc.Dataset) : bool :=
  match nc.variables ds !! name with Some _ => true | None => false end.

(** ** Invariants of a file being written *)

(** What [header] leaves: the four dimensions and the five variables, every
    cell at the fill value, nothing assigned yet. *)
Record header_spec (dname fname : string) (nx ny : Z) (n : nat) (ds : nc.Dataset)
  : Prop := {
  hs_nx : (0 <= nx)%Z;
  hs_ny : (0 <= ny)%Z;
  hs_x : nc.dimensions ds !! "x" = Some {| nc.dim_size := nx; nc.dim_len := Z.to_nat nx |};
  hs_y : nc.dimensions ds !! "y" = Some {| nc.dim_size := ny; nc.dim_len := Z.to_nat ny |};
  hs_d : nc.dimensions ds !! dname =
         Some {| nc.dim_size := Z.of_nat n; nc.dim_len := n |};
  hs_t : nc.dimensions ds !! "time_counter" =
         Some {| nc.dim_size := 0; nc.dim_len := 0 |};
  hs_dname : dname ∉ ["x"; "y"; "time_counter"; "nav_lon"; "nav_lat"];
  hs_fname : fname ∉ ["nav_lon"; "nav_lat"; "time_counter"; dname];
  hs_lon : nc.variables ds !! "nav_lon" =
           Some {| nc.datatype := float32; nc.var_dims := ["y"; "x"];
                   nc.cells := fun _ => nc.fill_value; nc.ncattrs := ∅ |};
  hs_lat : nc.variables ds !! "nav_lat" =
           Some {| nc.datatype := float32; nc.var_dims := ["y"; "x"];
                   nc.cells := fun _ => nc.fill_value; nc.ncattrs := ∅ |};
  hs_dv : nc.variables ds !! dname =
          Some {| nc.datatype := float32; nc.var_dims := [dname];
                  nc.cells := fun _ => nc.fill_value; nc.ncattrs := ∅ |};
  hs_tv : nc.variables ds !! "time_counter" =
          Some {| nc.datatype := float64; nc.var_dims := ["time_counter"];
                  nc.cells := fun _ => nc.fill_value; nc.ncattrs := ∅ |};
  hs_fv : nc.variables ds !! fname =
          Some {| nc.datatype := float32;
                  nc.var_dims := ["time_counter"; dname; "y"; "x"];
                  nc.cells := fun _ => nc.fill_value; nc.ncattrs := ∅ |};
  hs_puts : nc.puts ds = []
}.

(** A property that survives the assignments to the variables [vs] and
    the attributes set on the variables [ws]. *)
Definition stable (vs ws : list string) (P : nc.Dataset -> Prop) : Prop :=
  (forall name sel v d d', name ∈ vs -> nc.setitem name sel v d = Ok d' -> P d -> P d')
  /\ (forall name a v d d', name ∈ ws -> nc.setncattr name a v d = Ok d' -> P d -> P d').

(** A variable over [(y, x)] in a file whose horizontal dimensions were
    declared with sizes [nx] and [ny]; a dimension declared with a positive
    size has that length. *)
Definition lattice (name : string) (nx ny : Z) (ds : nc.Dataset) : Prop :=
  vdims ds name = Some ["y"; "x"] /\ vtype ds name = Some float32 /\
  dsize ds "x" = Some nx /\ dsize ds "y" = Some ny /\
  (nx <> 0%Z -> dlen ds "x" = Some (Z.to_nat nx)) /\
  (ny <> 0%Z -> dlen ds "y" = Some (Z.to_nat ny)).


(** ** The store [__init__] builds, as a function of the two datasets *)

(** What [a[np.isnan(a)] = 0.] makes of an element. *)
Definition sanitize (v : float) : float := if isnan v then fzero else v.

(** [dset[name][0, 0, :, :]] *)
Definition read_field (name : string) (ds : nc.Dataset) : result np.ndarray :=
  vu ← nc.getitem name [] ds; np.getitem vu [Idx 0; Idx 0; All; All].

(** [RectBivariateSpline(lat[:, 0], lon[0, :], F[:, :], kx=1, ky=1)] *)
Definition interpolator (lat lon F : np.ndarray) : result scipy.RectBivariateSpline :=
  x ← np.getitem lat [All; Idx 0];
  y ← np.getitem lon [Idx 0; All];
  z ← np.getitem F [All; All];
  scipy.build x y z.

(** What [__init__] makes of the two datasets: the same reads in the same
    order on the datasets themselves. *)
Definition decode (hU hV : string) (dsU dsV : nc.Dataset) : result NEMOGrid.t :=
  lon_u ← nc.getitem "nav_lon" [] dsU;
  lat_u ← nc.getitem "nav_lat" [] dsU;
  lon_v ← nc.getitem "nav_lon" [] dsV;
  lat_v ← nc.getitem "nav_lat" [] dsV;
  U ← read_field "vozocrtx" dsU;
  V ← read_field "vomecrty" dsV;
  su ← interpolator lat_u lon_u (np.nan_to_zero U);
  sv ← interpolator lat_v lon_v (np.nan_to_zero V);
  Ok (NEMOGrid.mk 0 0 PNone PNone
        (PArray lon_u) (PArray lat_u) (PArray lon_v) (PArray lat_v)
        (PArray (np.nan_to_zero U)) (PArray (np.nan_to_zero V))
        (Some hU) (Some hV) (Some su) (Some sv)).

(** The state a successful [NEMOGrid(filename)] leaves, for a non-empty
    [filename]. *)
Definition loaded (filename : string) (w : World) : result World :=
  match files w !! (filename +:+ "_U"), files w !! (filename +:+ "_V") with
  | Some dsU, Some dsV =>
      g ← decode (filename +:+ "_U") (filename +:+ "_V") dsU dsV;
      Ok (mkWorld (_particles w) (heap w ++ [g]) (files w) (stdout w))
  | _, _ => Raise MissingFileError
  end.

(** ** What a store read back holds, and what its interpolators give *)




(** A field of real numbers with NaN for missing values. *)
Definition real_or_nan (F : np.ndarray) : bool :=
  forallb (fun v => is_finite v || isnan v) (np.data F).

(** Sampled at the knot [(i, j)], [s] gives the sanitized entry [(i, j)] of
    [F]: 0 where the entry is NaN, the entry itself elsewhere. *)
Definition exact_at_nodes (s : scipy.RectBivariateSpline) (F : np.ndarray) : Prop :=
  forall i j x y, scipy.tx s !! i = Some x -> scipy.ty s !! j = Some y ->
    exists r q, scipy.ev s x y = Some r /\ (r == q)%Q /\
      to_Q (sanitize (np.item F [i; j])) = Some q /\
      (isnan (np.item F [i; j]) = true -> (r == 0)%Q) /\
      (isnan (np.item F [i; j]) = false -> to_Q (np.item F [i; j]) = Some q).

(** The knots of [s] are column 0 of the latitude lattice and row 0 of the
    longitude lattice. *)
Definition on_lattice (lat lon : pyobj) (s : scipy.RectBivariateSpline) : Prop :=
  exists a b x y, lat = PArray a /\ lon = PArray b /\
    np.getitem a [All; Idx 0] = Ok x /\ np.getitem b [Idx 0; All] = Ok y /\
    mapM to_Q (np.data x) = Some (scipy.tx s) /\
    mapM to_Q (np.data y) = Some (scipy.ty s).

(** ** Example grids and files *)

(** The number [n] as a float. *)
Definition fl (n : positive) : float := S754_finite false n 0.

(** A one-dimensional array. *)
Definition vec (l : list float) : pyobj :=
  PArray {| np.shape := [length l]; np.data := l |}.

(** A 3 x 3 grid built in memory: [U] has shape [(x-1, y)] and one NaN,
    [V] has shape [(x, y-1)]. *)
Definition example_grid : NEMOGrid.t :=
  NEMOGrid.mk 3 3 (vec [fzero]) (vec [fzero])
    (vec [fl 1; fl 2]) (vec [fl 1; fl 2; fl 3])
    (vec [fl 1; fl 2; fl 3]) (vec [fl 1; fl 2])
    (PArray {| np.shape := [2; 3];
               np.data := [fl 1; fl 2; fl 3; fl 4; S754_nan; fl 6] |})
    (PArray {| np.shape := [3; 2];
               np.data := [fl 1; fl 2; fl 3; fl 4; fl 5; fl 6] |})
    None None None None.

Definition example_world : World := mkWorld [] [example_grid] ∅ [].

(** Two objects made by [NEMOGrid()]. *)
Definition two_grids : World :=
  snd (new None (snd (new None (mkWorld [] [] ∅ [])))).



(** A grid with a single row: [range(self.y - 1)] is empty and [write]
    never reads [lon_v]. *)
Definition flat_grid : NEMOGrid.t :=
  NEMOGrid.mk 2 1 (vec [fzero]) (vec [fzero])
    (vec [fl 1]) (vec [fl 1])
    PNone (vec [])
    (PArray {| np.shape := [1; 1]; np.data := [fl 1] |})
    (PArray {| np.shape := [2; 0]; np.data := [] |})
    None None None None.




(** The example grid written under ["p"] and read back. *)
Definition example_written : World := snd (write 0 "p" example_world).

Definition example_back : World := snd (new (Some "p") example_written).

(** The dataset a sequence of library calls built. *)
Definition from_ok (r : result nc.Dataset) : nc.Dataset :=
  match r with Ok ds => ds | Raise _ => nc.empty end.

(** A U file with its variables declared and no record along the time
    dimension yet, and a V file that has the coordinates only. *)
Definition bare_U : nc.Dataset :=
  from_ok (header "depthu" "vozocrtx" 2 2 (vec [fzero])).

Definition bare_V : nc.Dataset :=
  from_ok (ds ← nc.createDimension "x" (Some 2%Z) nc.empty;
           ds ← nc.createDimension "y" (Some 2%Z) ds;
           ds ← nc.createVariable "nav_lon" float32 ["y"; "x"] ds;
           nc.createVariable "nav_lat" float32 ["y"; "x"] ds).

Definition bare_world : World :=
  mkWorld [] [] (<["p_V" := bare_V]> (<["p_U" := bare_U]> ∅)) [].

(** ** Runs that fail, and what a run leaves alone *)

(** A run [r] follows the pure computation [p]: when [p] fails, [r] raises
    the same exception in a state that satisfies [I]; when [p] gives [b],
    [K b] holds of [r]. *)
Definition track {A B} (I : World -> Prop) (r : result A * World) (p : result B)
    (K : B -> result A * World -> Prop) : Prop :=
  match p with
  | Ok b => K b r
  | Raise e => fst r = Raise e /\ I (snd r)
  end.

(** A computation that changes nothing but the attributes of [self]. *)
Definition init_only (self : oid) {A} (m : M A) : Prop :=
  forall w,
    _particles (snd (m w)) = _particles w /\
    files (snd (m w)) = files w /\
    stdout (snd (m w)) = stdout w /\
    length (heap (snd (m w))) = length (heap w) /\
    forall i, i <> self -> heap (snd (m w)) !! i = heap w !! i.

(** ** Declarations of a file, knots of an interpolator *)

(** What a variable of a file is declared over, and with which element
    type. *)
Definition declared (ds : nc.Dataset) (name : string) (dims : list string)
    (t : dtype) : Prop :=
  vdims ds name = Some dims /\ vtype ds name = Some t.

(** The knots of [s] increase strictly, and there are at least two along
    each axis. *)
Definition rectilinear (s : scipy.RectBivariateSpline) : Prop :=
  2 <= length (scipy.tx s) /\ 2 <= length (scipy.ty s) /\
  (forall i a b, scipy.tx s !! i = Some a -> scipy.tx s !! S i = Some b -> (a < b)%Q) /\
  (forall j a b, scipy.ty s !! j = Some a -> scipy.ty s !! S j = Some b -> (a < b)%Q).

(** ** Further example grids *)

(** A world with other things in it: particles, a second object, files
    and output from before. *)
Definition crowded_world : World :=
  mkWorld [7] [example_grid; flat_grid]
    (<["p_V" := bare_V]> (<["notes" := bare_U]> ∅)) ["earlier"].





(** ** Grids that can be written and read back *)








(** ** Theorems *)

(** *** Frame: what the methods leave unchanged *)

Lemma frames_ret {A} (a : A) : frames (mret a : M A).
Proof. by intros w. Qed.

Lemma frames_bind {A B} (m : M A) (k : A -> M B) :
  frames m -> (forall a, frames (k a)) -> frames (m ≫= k).
Proof.
  intros Hm Hk w. unfold mbind, M_bind.
  destruct (Hm w) as [H1 H2]. destruct (m w) as [[a|e] w1]; simpl in *.
  - destruct (Hk a w1) as [H3 H4]. split; congruence.
  - done.
Qed.

Lemma frames_lift {A} (r : result A) : frames (lift r).
Proof. by intros w. Qed.

Lemma frames_attr {A} self (f : NEMOGrid.t -> A) : frames (attr self f).
Proof. intros w. unfold attr. by destruct (heap w !! self). Qed.

Lemma frames_print s : frames (print s).
Proof. by intros w. Qed.

Lemma frames_Dataset_w p : frames (Dataset_w p).
Proof. by intros w. Qed.

Lemma frames_on_file h op : frames (on_file h op).
Proof.
  intros w. unfold on_file. destruct (files w !! h); [|done]. by destruct (op _).
Qed.

Lemma frames_for {A} (l : list A) body :
  (forall a, frames (body a)) -> frames (for_ l body).
Proof.
  intros Hb. induction l as [|a l IH]; simpl.
  - apply frames_ret.
  - apply frames_bind; [apply Hb | intros _; apply IH].
Qed.

Ltac frames_step :=
  first [ apply frames_bind; [|intros ?]
        | apply frames_for; intros ?
        | apply frames_attr | apply frames_print | apply frames_Dataset_w
        | apply frames_on_file | apply frames_lift | apply frames_ret ].

Lemma frames_write self filename : frames (write self filename).
Proof.
  unfold write, close, as_array, getitem, size_of. repeat frames_step.
Qed.

(** *** [write] computes [written] *)

Lemma M_assoc {A B C} (m : M A) (f : A -> M B) (g : B -> M C) w :
  ((m ≫= f) ≫= g) w = (m ≫= (fun a => f a ≫= g)) w.
Proof. unfold mbind, M_bind. by destruct (m w) as [[a|e] w1]. Qed.

Lemma result_assoc {A B C} (r : result A) (f : A -> result B) (g : B -> result C) :
  (r ≫= f) ≫= g = r ≫= (fun a => f a ≫= g).
Proof. by destruct r. Qed.

Lemma out_attr {A B} self (f : NEMOGrid.t -> A) (k : A -> M B) g w :
  heap w !! self = Some g -> (attr self f ≫= k) w = k (f g) w.
Proof. intros H. unfold mbind, M_bind, attr. by rewrite H. Qed.

Lemma out_lift {A B} (r : result A) (k : A -> M B) pk w b :
  (forall v, r = Ok v -> outcome (k v w) b (pk v)) ->
  outcome ((lift r ≫= k) w) b (r ≫= pk).
Proof. intros H. destruct r as [v|e]; [by apply H | done]. Qed.

Lemma out_on_file {B} h op (k : unit -> M B) pk ps hp fs so ds b :
  (forall ds', op ds = Ok ds' ->
     outcome (k tt (mkWorld ps hp (<[h := ds']> fs) so)) b (pk ds')) ->
  outcome ((on_file h op ≫= k) (mkWorld ps hp (<[h := ds]> fs) so)) b (op ds ≫= pk).
Proof.
  intros H. unfold mbind at 1, M_bind, on_file. simpl.
  rewrite lookup_insert_eq. destruct (op ds) as [ds'|e]; simpl; [|done].
  rewrite insert_insert_eq. by apply H.
Qed.

Lemma out_close {B} h (k : unit -> M B) p ps hp fs so ds b :
  outcome (k tt (mkWorld ps hp (<[h := ds]> fs) so)) b p ->
  outcome ((close h ≫= k) (mkWorld ps hp (<[h := ds]> fs) so)) b p.
Proof.
  intros H. unfold mbind, M_bind, close, on_file. simpl.
  by rewrite lookup_insert_eq, insert_insert_eq.
Qed.

Lemma out_close_last h ps hp fs so ds :
  outcome (close h (mkWorld ps hp (<[h := ds]> fs) so)) tt
          (Ok (mkWorld ps hp (<[h := ds]> fs) so)).
Proof.
  unfold close, on_file. simpl. by rewrite lookup_insert_eq, insert_insert_eq.
Qed.

Lemma out_for {A B} (l : list A) (mbody : A -> M unit) pbody
    (k : unit -> M B) pk ps hp fs h so ds b :
  (forall a ds0 (k' : unit -> M B) pk',
     (forall ds', pbody a ds0 = Ok ds' ->
        outcome (k' tt (mkWorld ps hp (<[h := ds']> fs) so)) b (pk' ds')) ->
     outcome ((mbody a ≫= k') (mkWorld ps hp (<[h := ds0]> fs) so)) b
             (pbody a ds0 ≫= pk')) ->
  (forall ds', forp l pbody ds = Ok ds' ->
     outcome (k tt (mkWorld ps hp (<[h := ds']> fs) so)) b (pk ds')) ->
  outcome ((for_ l mbody ≫= k) (mkWorld ps hp (<[h := ds]> fs) so)) b
          (forp l pbody ds ≫= pk).
Proof.
  intros Hbody. revert ds k pk. induction l as [|a l IH]; intros ds k pk Hk.
  - by apply Hk.
  - simpl. rewrite M_assoc, result_assoc. apply Hbody. intros ds' E.
    apply IH. intros ds'' E'. apply Hk. simpl. by rewrite E.
Qed.

Ltac out_step :=
  cbv beta;
  first
    [ rewrite M_assoc
    | rewrite result_assoc
    | erewrite out_attr by (simpl; eassumption)
    | apply out_lift; intros ? _
    | apply out_on_file; intros ? _
    | apply out_close
    | apply out_close_last ].

Ltac out_body :=
  let Hk := fresh "Hk" in
  let E := fresh "E" in
  intros ? ? ? ? Hk; cbv beta;
  rewrite M_assoc, result_assoc; erewrite out_attr by (simpl; eassumption);
  cbv beta; rewrite M_assoc;
  apply out_lift; intros ? E; apply out_on_file; intros ? ?;
  apply Hk; rewrite E; assumption.

Ltac out_loop := apply out_for; [ out_body | intros ? _ ].

(** Whatever the state, [write] ends as [written] says: in the state it
    gives, or with the exception the first failing call raises. *)
Theorem write_outcome self filename w g :
  heap w !! self = Some g ->
  outcome (write self filename w) tt (written g filename w).
Proof.
  intros Hg. destruct w as [ps hp fs so]. simpl in Hg.
  unfold write, written, encode_U, encode_V, encode, header, lon_rows, lat_cols,
    payload, as_array, getitem, size_of, path_local.
  change ((print ?s ≫= ?k) (mkWorld ps hp fs so))
    with (k tt (mkWorld ps hp fs (so ++ [s]))).
  cbv beta.
  change ((Dataset_w ?p ≫= ?k) (mkWorld ps hp fs ?so'))
    with (k p (mkWorld ps hp (<[p := nc.empty]> fs) so')).
  repeat out_step.
  out_loop. repeat out_step.
  out_loop. repeat out_step.
  change ((Dataset_w ?p ≫= ?k) (mkWorld ps hp ?fs' ?so'))
    with (k p (mkWorld ps hp (<[p := nc.empty]> fs') so')).
  repeat out_step.
  out_loop. repeat out_step.
  out_loop. repeat out_step.
Qed.

(** *** What the library calls change in a dataset *)

Lemma bind_Ok {A B} (r : result A) (f : A -> result B) b :
  r ≫= f = Ok b -> exists a, r = Ok a /\ f a = Ok b.
Proof. destruct r as [a|e]; [by exists a | done]. Qed.

Lemma createDimension_ok name size ds ds' :
  nc.createDimension name size ds = Ok ds' ->
  nc.dimensions ds !! name = None /\ (0 <= default 0 size)%Z /\
  nc.dimensions ds' =
    <[name := {| nc.dim_size := default 0%Z size;
                 nc.dim_len := Z.to_nat (default 0%Z size) |}]> (nc.dimensions ds) /\
  nc.variables ds' = nc.variables ds /\ nc.puts ds' = nc.puts ds.
Proof.
  unfold nc.createDimension. destruct (nc.dimensions ds !! name); [done|].
  destruct (Z.ltb_spec (default 0%Z size) 0); [done|].
  intros [= <-]. simpl. repeat split; auto.
Qed.

Lemma createVariable_ok name t dims ds ds' :
  nc.createVariable name t dims ds = Ok ds' ->
  nc.variables ds !! name = None /\
  nc.dimensions ds' = nc.dimensions ds /\
  nc.variables ds' =
    <[name := {| nc.datatype := t; nc.var_dims := dims;
                 nc.cells := fun _ => nc.fill_value; nc.ncattrs := ∅ |}]>
      (nc.variables ds) /\
  nc.puts ds' = nc.puts ds.
Proof.
  unfold nc.createVariable. destruct (nc.variables ds !! name); [done|].
  destruct (forallb _ _); [|done]. intros [= <-]. simpl. repeat split; auto.
Qed.

Lemma setitem_ok name sel v ds ds' :
  nc.setitem name sel v ds = Ok ds' ->
  exists var ax lens,
    nc.variables ds !! name = Some var /\ np.wf v = true /\
    nc.put_axes sel (nc.dims_of ds var) (np.shape v) = Ok (ax, lens) /\
    nc.dimensions ds' = nc.grow (nc.var_dims var) lens (nc.dimensions ds) /\
    nc.variables ds' =
      <[name := {| nc.datatype := nc.datatype var; nc.var_dims := nc.var_dims var;
                   nc.cells := fun idx =>
                     match project ax (np.shape v) idx with
                     | Some sub => cast (nc.datatype var) (np.item v sub)
                     | None => nc.cells var idx
                     end;
                   nc.ncattrs := nc.ncattrs var |}]> (nc.variables ds) /\
    nc.puts ds' = nc.puts ds ++ [(name, sel)].
Proof.
  unfold nc.setitem. destruct (nc.variables ds !! name) as [var|]; [|done].
  destruct (np.wf v) eqn:Ewf; [|done]. simpl.
  destruct (nc.put_axes _ _ _) as [[ax lens]|] eqn:Eax; [|done]. simpl.
  intros [= <-]. exists var, ax, lens. simpl. repeat split; auto.
Qed.

Lemma setncattr_ok name a v ds ds' :
  nc.setncattr name a v ds = Ok ds' ->
  exists var,
    nc.variables ds !! name = Some var /\
    nc.dimensions ds' = nc.dimensions ds /\
    nc.variables ds' =
      <[name := {| nc.datatype := nc.datatype var; nc.var_dims := nc.var_dims var;
                   nc.cells := nc.cells var;
                   nc.ncattrs := <[a := v]> (nc.ncattrs var) |}]> (nc.variables ds) /\
    nc.puts ds' = nc.puts ds.
Proof.
  unfold nc.setncattr. destruct (nc.variables ds !! name) as [var|]; [|done].
  intros [= <-]. exists var. simpl. repeat split; auto.
Qed.

(** Growth keeps the declared sizes. *)
Lemma grow_size names lens dims d :
  nc.dim_size <$> nc.grow names lens dims !! d = nc.dim_size <$> dims !! d.
Proof.
  revert lens dims. induction names as [|nm names IH]; intros [|n lens] dims;
    simpl; try done.
  rewrite IH. rewrite lookup_alter. case_decide; [subst|done].
  by destruct (dims !! d).
Qed.

(** A fixed dimension keeps its length. *)
Lemma put_axes_lens sel dims vshp ax lens :
  nc.put_axes sel dims vshp = Ok (ax, lens) ->
  Forall2 (fun D n => nc.isunlimited D = false -> n = nc.dim_len D) dims lens.
Proof.
  revert sel vshp ax lens.
  induction dims as [|D dims IH]; intros sel vshp ax lens; simpl.
  - destruct sel, vshp; try done. intros [= <- <-]. constructor.
  - assert (Hslice : forall sel',
      match vshp with
      | [] => Raise DimensionMismatchError
      | n :: vshp' =>
          if (if nc.isunlimited D then bool_decide (nc.dim_len D <= n)
              else bool_decide (n = nc.dim_len D))
          then '(ax, lens) ← nc.put_axes sel' dims vshp'; Ok (None :: ax, n :: lens)
          else Raise DimensionMismatchError
      end = Ok (ax, lens) ->
      Forall2 (fun D n => nc.isunlimited D = false -> n = nc.dim_len D)
              (D :: dims) lens).
    { intros sel'. destruct vshp as [|n vshp']; [done|].
      destruct (nc.isunlimited D) eqn:EU.
      - case_bool_decide; [|done]. intros Hb.
        apply bind_Ok in Hb as ([ax' lens'] & H1 & [= <- <-]).
        constructor; [intros; congruence | by eapply IH].
      - case_bool_decide; [|done]. intros Hb.
        apply bind_Ok in Hb as ([ax' lens'] & H1 & [= <- <-]).
        constructor; [done | by eapply IH]. }
    destruct sel as [|[i|] sel']; [apply (Hslice []) | | apply (Hslice sel')].
    destruct (if nc.isunlimited D && (0 <=? i)%Z then Some (Z.to_nat i)
              else norm_index (nc.dim_len D) i) as [k|] eqn:Ek; [|done].
    intros H. apply bind_Ok in H as ([ax' lens'] & H1 & [= <- <-]).
    constructor; [|by eapply IH].
    intros EU. rewrite EU in Ek. simpl in Ek. unfold norm_index in Ek.
    destruct (_ && _)%bool eqn:Eb in Ek; [|done]. injection Ek as <-.
    apply andb_true_iff in Eb as [Hb1 Hb2].
    apply Z.leb_le in Hb1. apply Z.ltb_lt in Hb2. lia.
Qed.
Lemma grow_fixed names lens (m0 m : gmap string nc.Dimension) d D :
  m0 !! d = Some D -> nc.isunlimited D = false ->
  Forall2 (fun nm n => forall D', m0 !! nm = Some D' ->
                       nc.isunlimited D' = false -> n = nc.dim_len D') names lens ->
  nc.dim_len <$> m !! d = Some (nc.dim_len D) ->
  nc.dim_len <$> nc.grow names lens m !! d = Some (nc.dim_len D).
Proof.
  intros HD HU HF. revert m. induction HF as [|nm n names lens Hn HF IH]; intros m Hm.
  - done.
  - simpl. apply IH. rewrite lookup_alter. case_decide; [subst|done].
    destruct (m !! d); [|done]. simpl. f_equal. by apply Hn.
Qed.

Lemma setitem_dsize name sel v ds ds' d :
  nc.setitem name sel v ds = Ok ds' -> dsize ds' d = dsize ds d.
Proof.
  intros H. apply setitem_ok in H as (var & ax & lens & _ & _ & _ & Hd & _).
  unfold dsize. rewrite Hd. apply grow_size.
Qed.

Lemma setitem_dlen_fixed name sel v ds ds' d z :
  nc.setitem name sel v ds = Ok ds' ->
  dsize ds d = Some z -> z <> 0%Z -> dlen ds' d = dlen ds d.
Proof.
  intros H Hz Hne.
  apply setitem_ok in H as (var & ax & lens & _ & _ & Hax & Hd & _).
  unfold dlen, dsize in *. rewrite Hd.
  destruct (nc.dimensions ds !! d) as [D|] eqn:ED; [|done].
  injection Hz as Hz. simpl.
  apply (grow_fixed _ _ (nc.dimensions ds)); auto.
  - unfold nc.isunlimited. apply bool_decide_eq_false. congruence.
  - apply put_axes_lens in Hax. unfold nc.dims_of in Hax.
    apply Forall2_fmap_l in Hax. eapply Forall2_impl; [exact Hax|].
    intros nm n Hn D' HD' HU'. simpl in Hn. rewrite HD' in Hn. by apply Hn.
  - by rewrite ED.
Qed.

Lemma setitem_puts name sel v ds ds' :
  nc.setitem name sel v ds = Ok ds' -> nc.puts ds' = nc.puts ds ++ [(name, sel)].
Proof. intros H. by apply setitem_ok in H as (var & ax & lens & _ & _ & _ & _ & _ & ?). Qed.

Lemma setitem_vattr name sel v ds ds' n a :
  nc.setitem name sel v ds = Ok ds' -> vattr ds' n a = vattr ds n a.
Proof.
  intros H. apply setitem_ok in H as (var & ax & lens & Hv & _ & _ & _ & Hvs & _).
  unfold vattr. rewrite Hvs. destruct (decide (name = n)) as [->|Hne].
  - by rewrite lookup_insert_eq, Hv.
  - by rewrite lookup_insert_ne.
Qed.

Lemma setitem_vdims name sel v ds ds' n :
  nc.setitem name sel v ds = Ok ds' -> vdims ds' n = vdims ds n.
Proof.
  intros H. apply setitem_ok in H as (var & ax & lens & Hv & _ & _ & _ & Hvs & _).
  unfold vdims. rewrite Hvs. destruct (decide (name = n)) as [->|Hne].
  - by rewrite lookup_insert_eq, Hv.
  - by rewrite lookup_insert_ne.
Qed.

Lemma setitem_vtype name sel v ds ds' n :
  nc.setitem name sel v ds = Ok ds' -> vtype ds' n = vtype ds n.
Proof.
  intros H. apply setitem_ok in H as (var & ax & lens & Hv & _ & _ & _ & Hvs & _).
  unfold vtype. rewrite Hvs. destruct (decide (name = n)) as [->|Hne].
  - by rewrite lookup_insert_eq, Hv.
  - by rewrite lookup_insert_ne.
Qed.


Lemma setncattr_dims name a v ds ds' :
  nc.setncattr name a v ds = Ok ds' -> nc.dimensions ds' = nc.dimensions ds.
Proof. intros H. by apply setncattr_ok in H as (var & _ & ? & _). Qed.

Lemma setncattr_puts name a v ds ds' :
  nc.setncattr name a v ds = Ok ds' -> nc.puts ds' = nc.puts ds.
Proof. intros H. by apply setncattr_ok in H as (var & _ & _ & _ & ?). Qed.


Lemma setncattr_vdims name a v ds ds' n :
  nc.setncattr name a v ds = Ok ds' -> vdims ds' n = vdims ds n.
Proof.
  intros H. apply setncattr_ok in H as (var & Hv & _ & Hvs & _).
  unfold vdims. rewrite Hvs. destruct (decide (name = n)) as [->|Hne].
  - by rewrite lookup_insert_eq, Hv.
  - by rewrite lookup_insert_ne.
Qed.

Lemma setncattr_vtype name a v ds ds' n :
  nc.setncattr name a v ds = Ok ds' -> vtype ds' n = vtype ds n.
Proof.
  intros H. apply setncattr_ok in H as (var & Hv & _ & Hvs & _).
  unfold vtype. rewrite Hvs. destruct (decide (name = n)) as [->|Hne].
  - by rewrite lookup_insert_eq, Hv.
  - by rewrite lookup_insert_ne.
Qed.

Lemma setncattr_vattr name a v ds ds' n b :
  nc.setncattr name a v ds = Ok ds' ->
  vattr ds' n b = if decide (name = n /\ a = b) then Some v else vattr ds n b.
Proof.
  intros H. apply setncattr_ok in H as (var & Hv & _ & Hvs & _).
  unfold vattr. rewrite Hvs. destruct (decide (name = n)) as [->|Hne].
  - rewrite lookup_insert_eq, Hv. simpl. rewrite lookup_insert.
    destruct (decide (a = b)) as [->|Hab].
    + by rewrite decide_True.
    + by rewrite decide_False by (intros [_ ?]; done).
  - rewrite lookup_insert_ne by done.
    by rewrite decide_False by (intros [? _]; done).
Qed.
(** *** The header of a file *)

Lemma header_ok dname fname nx ny depth ds :
  header dname fname nx ny depth = Ok ds ->
  exists n, py.size depth = Ok n /\ header_spec dname fname nx ny n ds.
Proof.
  unfold header. intros H.
  apply bind_Ok in H as (ds1 & H1 & H).
  apply bind_Ok in H as (ds2 & H2 & H).
  apply bind_Ok in H as (n & Hn & H).
  apply bind_Ok in H as (ds3 & H3 & H).
  apply bind_Ok in H as (ds4 & H4 & H).
  apply bind_Ok in H as (ds5 & H5 & H).
  apply bind_Ok in H as (ds6 & H6 & H).
  apply bind_Ok in H as (ds7 & H7 & H).
  apply bind_Ok in H as (ds8 & H8 & H9).
  apply createDimension_ok in H1 as (_ & Hnx & D1 & V1 & P1).
  apply createDimension_ok in H2 as (_ & Hny & D2 & V2 & P2).
  apply createDimension_ok in H3 as (N3 & _ & D3 & V3 & P3).
  apply createDimension_ok in H4 as (N4 & _ & D4 & V4 & P4).
  apply createVariable_ok in H5 as (_ & D5 & V5 & P5).
  apply createVariable_ok in H6 as (_ & D6 & V6 & P6).
  apply createVariable_ok in H7 as (N7 & D7 & V7 & P7).
  apply createVariable_ok in H8 as (N8 & D8 & V8 & P8).
  apply createVariable_ok in H9 as (N9 & D9 & V9 & P9).
  simpl in *.
  rewrite D2, D1 in N3. rewrite D3, D2, D1 in N4.
  rewrite V6, V5, V4, V3, V2, V1 in N7.
  rewrite V7, V6, V5, V4, V3, V2, V1 in N8.
  rewrite V8, V7, V6, V5, V4, V3, V2, V1 in N9.
  apply lookup_insert_None in N3 as [N3 Hdy].
  apply lookup_insert_None in N3 as [_ Hdx].
  apply lookup_insert_None in N4 as [_ Hdt].
  apply lookup_insert_None in N7 as [N7 Hd1].
  apply lookup_insert_None in N7 as [_ Hd2].
  apply lookup_insert_None in N8 as [_ Htd].
  apply lookup_insert_None in N9 as [N9 Hf1].
  apply lookup_insert_None in N9 as [N9 Hf2].
  apply lookup_insert_None in N9 as [N9 Hf3].
  apply lookup_insert_None in N9 as [_ Hf4].
  exists n. split; [done|].
  split; try done.
  - rewrite D9, D8, D7, D6, D5, D4, D3, D2, D1.
    by rewrite !lookup_insert_ne, lookup_insert_eq by congruence.
  - rewrite D9, D8, D7, D6, D5, D4, D3, D2, D1.
    by rewrite !lookup_insert_ne, lookup_insert_eq by congruence.
  - rewrite D9, D8, D7, D6, D5, D4, D3, D2, D1.
    rewrite lookup_insert_ne, lookup_insert_eq by congruence.
    by rewrite Nat2Z.id.
  - rewrite D9, D8, D7, D6, D5, D4, D3, D2, D1.
    by rewrite lookup_insert_eq.
  - rewrite !not_elem_of_cons. repeat split; try congruence. apply not_elem_of_nil.
  - rewrite !not_elem_of_cons. repeat split; try congruence. apply not_elem_of_nil.
  - rewrite V9, V8, V7, V6, V5, V4, V3, V2, V1.
    by rewrite !lookup_insert_ne, lookup_insert_eq by congruence.
  - rewrite V9, V8, V7, V6, V5, V4, V3, V2, V1.
    by rewrite !lookup_insert_ne, lookup_insert_eq by congruence.
  - rewrite V9, V8, V7, V6, V5, V4, V3, V2, V1.
    by rewrite !lookup_insert_ne, lookup_insert_eq by congruence.
  - rewrite V9, V8, V7, V6, V5, V4, V3, V2, V1.
    by rewrite !lookup_insert_ne, lookup_insert_eq by congruence.
  - rewrite V9, V8, V7, V6, V5, V4, V3, V2, V1.
    by rewrite lookup_insert_eq.
  - by rewrite P9, P8, P7, P6, P5, P4, P3, P2, P1.
Qed.
(** *** The stages of [encode] *)

Lemma forp_pres {A} (P : nc.Dataset -> Prop) (l : list A) body ds ds' :
  forp l body ds = Ok ds' ->
  (forall a d d', a ∈ l -> body a d = Ok d' -> P d -> P d') ->
  P ds -> P ds'.
Proof.
  revert ds. induction l as [|a l IH]; simpl; intros ds H Hb HP.
  - by injection H as <-.
  - apply bind_Ok in H as (d1 & H1 & H). apply (IH d1); auto.
    + intros b d d' Hin. apply Hb. by right.
    + eapply Hb; eauto. by left.
Qed.


Lemma lon_rows_inv rows line ref ds ds' :
  lon_rows rows line ref ds = Ok ds' ->
  exists ds1 ds2 v0 v1,
    forp rows (fun y ds => v ← py.array line;
                           nc.setitem "nav_lon" [Idx y; All] v ds) ds = Ok ds1 /\
    py.getitem ref [Idx 0] = Ok v0 /\
    nc.setncattr "nav_lon" "valid_min" v0 ds1 = Ok ds2 /\
    py.getitem ref [Idx (-1)] = Ok v1 /\
    nc.setncattr "nav_lon" "valid_max" v1 ds2 = Ok ds'.
Proof.
  unfold lon_rows. intros H.
  apply bind_Ok in H as (ds1 & H1 & H). apply bind_Ok in H as (v0 & H2 & H).
  apply bind_Ok in H as (ds2 & H3 & H). apply bind_Ok in H as (v1 & H4 & H).
  by exists ds1, ds2, v0, v1.
Qed.

Lemma lat_cols_inv cols line ref ds ds' :
  lat_cols cols line ref ds = Ok ds' ->
  exists ds1 ds2 v0 v1,
    forp cols (fun x ds => v ← py.array line;
                           nc.setitem "nav_lat" [All; Idx x] v ds) ds = Ok ds1 /\
    py.getitem ref [Idx 0] = Ok v0 /\
    nc.setncattr "nav_lat" "valid_min" v0 ds1 = Ok ds2 /\
    py.getitem ref [Idx (-1)] = Ok v1 /\
    nc.setncattr "nav_lat" "valid_max" v1 ds2 = Ok ds'.
Proof.
  unfold lat_cols. intros H.
  apply bind_Ok in H as (ds1 & H1 & H). apply bind_Ok in H as (v0 & H2 & H).
  apply bind_Ok in H as (ds2 & H3 & H). apply bind_Ok in H as (v1 & H4 & H).
  by exists ds1, ds2, v0, v1.
Qed.

Lemma payload_inv dname fname depth time field ds ds' :
  payload dname fname depth time field ds = Ok ds' ->
  exists d t f ds1 ds2,
    py.array depth = Ok d /\ nc.setitem dname [All] d ds = Ok ds1 /\
    py.array time = Ok t /\ nc.setitem "time_counter" [All] t ds1 = Ok ds2 /\
    py.array field = Ok f /\
    nc.setitem fname [Idx 0; Idx 0; All; All] (np.transpose f) ds2 = Ok ds'.
Proof.
  unfold payload. intros H.
  apply bind_Ok in H as (d & H1 & H). apply bind_Ok in H as (ds1 & H2 & H).
  apply bind_Ok in H as (t & H3 & H). apply bind_Ok in H as (ds2 & H4 & H).
  apply bind_Ok in H as (f & H5 & H).
  by exists d, t, f, ds1, ds2.
Qed.

Lemma encode_inv dname fname nx ny depth time lon lat lon_ref lat_ref field ds :
  encode dname fname nx ny depth time lon lat lon_ref lat_ref field = Ok ds ->
  exists n ds1 ds2 ds3,
    py.size depth = Ok n /\ header_spec dname fname nx ny n ds1 /\
    lon_rows (range ny) lon lon_ref ds1 = Ok ds2 /\
    lat_cols (range nx) lat lat_ref ds2 = Ok ds3 /\
    payload dname fname depth time field ds3 = Ok ds.
Proof.
  unfold encode. intros H.
  apply bind_Ok in H as (ds1 & H1 & H). apply bind_Ok in H as (ds2 & H2 & H).
  apply bind_Ok in H as (ds3 & H3 & H).
  apply header_ok in H1 as (n & Hn & Hs). by exists n, ds1, ds2, ds3.
Qed.

Lemma stable_lon_rows P rows line ref ds ds' :
  stable ["nav_lon"] ["nav_lon"] P ->
  lon_rows rows line ref ds = Ok ds' -> P ds -> P ds'.
Proof.
  intros [Hs Ha] H HP.
  apply lon_rows_inv in H as (ds1 & ds2 & v0 & v1 & H1 & _ & H2 & _ & H3).
  eapply Ha; [|exact H3|]; [by left|].
  eapply Ha; [|exact H2|]; [by left|].
  eapply forp_pres; [exact H1| |exact HP].
  intros a d d' _ Hb. apply bind_Ok in Hb as (v & _ & Hb).
  eapply Hs; [|exact Hb]. by left.
Qed.

Lemma stable_lat_cols P cols line ref ds ds' :
  stable ["nav_lat"] ["nav_lat"] P ->
  lat_cols cols line ref ds = Ok ds' -> P ds -> P ds'.
Proof.
  intros [Hs Ha] H HP.
  apply lat_cols_inv in H as (ds1 & ds2 & v0 & v1 & H1 & _ & H2 & _ & H3).
  eapply Ha; [|exact H3|]; [by left|].
  eapply Ha; [|exact H2|]; [by left|].
  eapply forp_pres; [exact H1| |exact HP].
  intros a d d' _ Hb. apply bind_Ok in Hb as (v & _ & Hb).
  eapply Hs; [|exact Hb]. by left.
Qed.

Lemma stable_payload P dname fname depth time field ds ds' :
  stable [dname; "time_counter"; fname] [] P ->
  payload dname fname depth time field ds = Ok ds' -> P ds -> P ds'.
Proof.
  intros [Hs _] H HP.
  apply payload_inv in H as (d & t & f & ds1 & ds2 & _ & H1 & _ & H2 & _ & H3).
  eapply Hs; [|exact H3|]; [by repeat first [left | right]|].
  eapply Hs; [|exact H2|]; [by repeat first [left | right]|].
  eapply Hs; [|exact H1|]; [by repeat first [left | right]|]. done.
Qed.

Lemma stable_weaken vs ws vs' ws' P :
  stable vs ws P -> vs' ⊆ vs -> ws' ⊆ ws -> stable vs' ws' P.
Proof. intros [Hs Ha] Hv Hw. split; intros; [eapply Hs | eapply Ha]; eauto. Qed.

Lemma stable_dsize vs ws d z : stable vs ws (fun ds => dsize ds d = z).
Proof.
  split; intros name ? v ds ds' _ H HP.
  - by rewrite (setitem_dsize _ _ _ _ _ _ H).
  - unfold dsize. by rewrite (setncattr_dims _ _ _ _ _ H).
Qed.

Lemma forp_puts rows line name (sel : Z -> list selector) ds ds' :
  forp rows (fun r ds => v ← py.array line; nc.setitem name (sel r) v ds) ds = Ok ds' ->
  nc.puts ds' = nc.puts ds ++ map (fun r => (name, sel r)) rows.
Proof.
  revert ds. induction rows as [|r rows IH]; simpl; intros ds H.
  - injection H as <-. by rewrite app_nil_r.
  - apply bind_Ok in H as (d1 & H1 & H). apply bind_Ok in H1 as (v & _ & H1).
    rewrite (IH _ H), (setitem_puts _ _ _ _ _ H1). by rewrite <- app_assoc.
Qed.

(** The assignments a file received, in order. *)
Theorem encode_puts dname fname nx ny depth time lon lat lon_ref lat_ref field ds :
  encode dname fname nx ny depth time lon lat lon_ref lat_ref field = Ok ds ->
  nc.puts ds =
    map (fun y => ("nav_lon", [Idx y; All])) (range ny)
    ++ map (fun x => ("nav_lat", [All; Idx x])) (range nx)
    ++ [(dname, [All]); ("time_counter", [All]); (fname, [Idx 0; Idx 0; All; All])].
Proof.
  intros H. apply encode_inv in H as (n & ds1 & ds2 & ds3 & _ & Hs & H2 & H3 & H4).
  apply lon_rows_inv in H2 as (a1 & a2 & ? & ? & L1 & _ & L2 & _ & L3).
  apply lat_cols_inv in H3 as (b1 & b2 & ? & ? & C1 & _ & C2 & _ & C3).
  apply payload_inv in H4 as (? & ? & ? & p1 & p2 & _ & P1 & _ & P2 & _ & P3).
  rewrite (setitem_puts _ _ _ _ _ P3), (setitem_puts _ _ _ _ _ P2),
    (setitem_puts _ _ _ _ _ P1), (setncattr_puts _ _ _ _ _ C3),
    (setncattr_puts _ _ _ _ _ C2),
    (forp_puts _ _ _ (fun x => [All; Idx x]) _ _ C1),
    (setncattr_puts _ _ _ _ _ L3), (setncattr_puts _ _ _ _ _ L2),
    (forp_puts _ _ _ (fun y => [Idx y; All]) _ _ L1), (hs_puts _ _ _ _ _ _ Hs).
  simpl. by rewrite <- !app_assoc.
Qed.

(** The declared sizes of the horizontal dimensions. *)
Theorem encode_dsize dname fname nx ny depth time lon lat lon_ref lat_ref field ds :
  encode dname fname nx ny depth time lon lat lon_ref lat_ref field = Ok ds ->
  dsize ds "x" = Some nx /\ dsize ds "y" = Some ny.
Proof.
  intros H. apply encode_inv in H as (n & ds1 & ds2 & ds3 & _ & Hs & H2 & H3 & H4).
  assert (Hd : forall d z, dsize ds1 d = z -> dsize ds d = z).
  { intros d z Hz.
    eapply (stable_payload (fun ds => dsize ds d = z)); [apply stable_dsize|exact H4|].
    eapply (stable_lat_cols (fun ds => dsize ds d = z)); [apply stable_dsize|exact H3|].
    eapply (stable_lon_rows (fun ds => dsize ds d = z)); [apply stable_dsize|exact H2|].
    done. }
  split; apply Hd; unfold dsize.
  - by rewrite (hs_x _ _ _ _ _ _ Hs).
  - by rewrite (hs_y _ _ _ _ _ _ Hs).
Qed.

Lemma stable_vattr vs ws n a z :
  n ∉ ws -> stable vs ws (fun ds => vattr ds n a = z).
Proof.
  intros Hn. split; intros name ? v ds ds' Hin H HP.
  - by rewrite (setitem_vattr _ _ _ _ _ _ _ H).
  - rewrite (setncattr_vattr _ _ _ _ _ _ _ H).
    rewrite decide_False; [done|]. intros [-> _]. done.
Qed.

(** The bounds attached to the coordinate variables. *)
Theorem encode_vattr dname fname nx ny depth time lon lat lon_ref lat_ref field ds :
  encode dname fname nx ny depth time lon lat lon_ref lat_ref field = Ok ds ->
  exists lon0 lon1 lat0 lat1,
    py.getitem lon_ref [Idx 0] = Ok lon0 /\ py.getitem lon_ref [Idx (-1)] = Ok lon1 /\
    py.getitem lat_ref [Idx 0] = Ok lat0 /\ py.getitem lat_ref [Idx (-1)] = Ok lat1 /\
    vattr ds "nav_lon" "valid_min" = Some lon0 /\
    vattr ds "nav_lon" "valid_max" = Some lon1 /\
    vattr ds "nav_lat" "valid_min" = Some lat0 /\
    vattr ds "nav_lat" "valid_max" = Some lat1.
Proof.
  intros H. apply encode_inv in H as (n & ds1 & ds2 & ds3 & _ & Hs & H2 & H3 & H4).
  pose proof H2 as H2'. pose proof H3 as H3'.
  apply lon_rows_inv in H2 as (a1 & a2 & lon0 & lon1 & L1 & G1 & L2 & G2 & L3).
  apply lat_cols_inv in H3 as (b1 & b2 & lat0 & lat1 & C1 & G3 & C2 & G4 & C3).
  exists lon0, lon1, lat0, lat1. repeat split; try done.
  - eapply (stable_payload (fun ds => vattr ds "nav_lon" "valid_min" = Some lon0));
      [apply stable_vattr, not_elem_of_nil|exact H4|].
    eapply (stable_lat_cols (fun ds => vattr ds "nav_lon" "valid_min" = Some lon0));
      [apply stable_vattr|exact H3'|].
    { rewrite not_elem_of_cons. split; [done|apply not_elem_of_nil]. }
    rewrite (setncattr_vattr _ _ _ _ _ _ _ L3), decide_False by (intros [_ ?]; done).
    by rewrite (setncattr_vattr _ _ _ _ _ _ _ L2), decide_True.
  - eapply (stable_payload (fun ds => vattr ds "nav_lon" "valid_max" = Some lon1));
      [apply stable_vattr, not_elem_of_nil|exact H4|].
    eapply (stable_lat_cols (fun ds => vattr ds "nav_lon" "valid_max" = Some lon1));
      [apply stable_vattr|exact H3'|].
    { rewrite not_elem_of_cons. split; [done|apply not_elem_of_nil]. }
    by rewrite (setncattr_vattr _ _ _ _ _ _ _ L3), decide_True.
  - eapply (stable_payload (fun ds => vattr ds "nav_lat" "valid_min" = Some lat0));
      [apply stable_vattr, not_elem_of_nil|exact H4|].
    rewrite (setncattr_vattr _ _ _ _ _ _ _ C3), decide_False by (intros [_ ?]; done).
    by rewrite (setncattr_vattr _ _ _ _ _ _ _ C2), decide_True.
  - eapply (stable_payload (fun ds => vattr ds "nav_lat" "valid_max" = Some lat1));
      [apply stable_vattr, not_elem_of_nil|exact H4|].
    by rewrite (setncattr_vattr _ _ _ _ _ _ _ C3), decide_True.
Qed.

(** *** Successful runs of [write] *)

Lemma suffix_U_V (p : string) : p +:+ "_U" <> p +:+ "_V".
Proof. induction p as [|a p IH]; simpl; [done|]. intros [=]. by apply IH. Qed.

(** A run of [write] that raises nothing built both files as [encode]
    says, and changed nothing else but the standard output. *)
Lemma write_ok self filename w g :
  heap w !! self = Some g ->
  fst (write self filename w) = Ok tt ->
  exists dsU dsV,
    encode_U g = Ok dsU /\ encode_V g = Ok dsV /\
    files (snd (write self filename w)) !! (filename +:+ "_U") = Some dsU /\
    files (snd (write self filename w)) !! (filename +:+ "_V") = Some dsV.
Proof.
  intros Hg Hok. pose proof (write_outcome self filename w g Hg) as Ho.
  unfold written in Ho.
  destruct (encode_U g) as [dsU|e]; simpl in Ho; [|congruence].
  destruct (encode_V g) as [dsV|e]; simpl in Ho; [|congruence].
  exists dsU, dsV. rewrite Ho. simpl. repeat split.
  - rewrite lookup_insert_ne by (apply not_eq_sym, suffix_U_V).
    apply lookup_insert_eq.
  - apply lookup_insert_eq.
Qed.

Lemma encode_nonneg dname fname nx ny depth time lon lat lon_ref lat_ref field ds :
  encode dname fname nx ny depth time lon lat lon_ref lat_ref field = Ok ds ->
  (0 <= nx)%Z /\ (0 <= ny)%Z.
Proof.
  intros H. apply encode_inv in H as (n & ds1 & ds2 & ds3 & _ & Hs & _).
  split; [eapply hs_nx | eapply hs_ny]; eauto.
Qed.

Lemma length_range n : length (range n) = Z.to_nat n.
Proof. unfold range. by rewrite length_map, length_seq. Qed.

(** *** Coordinate variables: rows and columns *)

Lemma stable_lattice vs ws name nx ny : stable vs ws (lattice name nx ny).
Proof.
  split.
  - intros n sel v d d' _ H (H1 & H2 & H3 & H4 & H5 & H6).
    repeat split.
    + by rewrite (setitem_vdims _ _ _ _ _ _ H).
    + by rewrite (setitem_vtype _ _ _ _ _ _ H).
    + by rewrite (setitem_dsize _ _ _ _ _ _ H).
    + by rewrite (setitem_dsize _ _ _ _ _ _ H).
    + intros Hn. rewrite (setitem_dlen_fixed _ _ _ _ _ _ _ H H3 Hn). auto.
    + intros Hn. rewrite (setitem_dlen_fixed _ _ _ _ _ _ _ H H4 Hn). auto.
  - intros n a v d d' _ H (H1 & H2 & H3 & H4 & H5 & H6).
    unfold lattice, dsize, dlen in *.
    rewrite (setncattr_dims _ _ _ _ _ H), (setncattr_vdims _ _ _ _ _ _ H),
      (setncattr_vtype _ _ _ _ _ _ H). repeat split; auto.
Qed.













Lemma header_lattice dname fname nx ny n ds :
  header_spec dname fname nx ny n ds ->
  lattice "nav_lon" nx ny ds /\ lattice "nav_lat" nx ny ds.
Proof.
  intros Hs. unfold lattice, vdims, vtype, dsize, dlen.
  rewrite (hs_lon _ _ _ _ _ _ Hs), (hs_lat _ _ _ _ _ _ Hs),
    (hs_x _ _ _ _ _ _ Hs), (hs_y _ _ _ _ _ _ Hs). simpl. repeat split; auto.
Qed.

Lemma stable_all P ds ds' dname fname depth time field
    lon lat lon_ref lat_ref ds1 ds2 nx ny :
  stable ["nav_lon"; "nav_lat"; dname; "time_counter"; fname]
         ["nav_lon"; "nav_lat"] P ->
  lon_rows (range ny) lon lon_ref ds1 = Ok ds2 ->
  lat_cols (range nx) lat lat_ref ds2 = Ok ds' ->
  payload dname fname depth time field ds' = Ok ds ->
  P ds1 -> P ds.
Proof.
  intros HS H2 H3 H4 HP.
  eapply (stable_payload P); [|exact H4|].
  { eapply stable_weaken; [exact HS| |apply list_subseteq_nil].
    intros n Hn. by do 2 right. }
  eapply (stable_lat_cols P); [|exact H3|].
  { eapply stable_weaken; [exact HS| |].
    - intros n Hn. apply list_elem_of_singleton in Hn as ->. by right; left.
    - intros n Hn. apply list_elem_of_singleton in Hn as ->. by right; left. }
  eapply (stable_lon_rows P); [|exact H2|exact HP].
  eapply stable_weaken; [exact HS| |].
  - intros n Hn. apply list_elem_of_singleton in Hn as ->. by left.
  - intros n Hn. apply list_elem_of_singleton in Hn as ->. by left.
Qed.

(** The coordinate variables of a written file keep their layout: each
    horizontal dimension has the size it was declared with, and that length
    when the size is positive. *)
Theorem encode_lattice dname fname nx ny depth time lon lat lon_ref lat_ref field ds :
  encode dname fname nx ny depth time lon lat lon_ref lat_ref field = Ok ds ->
  lattice "nav_lon" nx ny ds /\ lattice "nav_lat" nx ny ds.
Proof.
  intros H. apply encode_inv in H as (n & ds1 & ds2 & ds3 & _ & Hs & H2 & H3 & H4).
  destruct (header_lattice _ _ _ _ _ _ Hs) as [L1 L2].
  split.
  - apply (stable_all (lattice "nav_lon" nx ny) _ _ _ _ _ _ _ _ _ _ _ _ _ _ _
             (stable_lattice _ _ _ _ _) H2 H3 H4 L1).
  - apply (stable_all (lattice "nav_lat" nx ny) _ _ _ _ _ _ _ _ _ _ _ _ _ _ _
             (stable_lattice _ _ _ _ _) H2 H3 H4 L2).
Qed.


(** *** C2 *)

(** C2 (stagger invariant).  When [write] succeeds, the U file declares
    dimension [x] with size [self.x - 1] and [y] with size [self.y], and the
    V file declares [x] with size [self.x] and [y] with size [self.y - 1];
    all four sizes are non-negative, and a dimension declared with a positive
    size has exactly that length. *)
Theorem write_declares_staggered_dimensions self filename w g :
  heap w !! self = Some g ->
  fst (write self filename w) = Ok tt ->
  exists dsU dsV,
    files (snd (write self filename w)) !! (filename +:+ "_U") = Some dsU /\
    files (snd (write self filename w)) !! (filename +:+ "_V") = Some dsV /\
    dsize dsU "x" = Some (NEMOGrid.x g - 1)%Z /\
    dsize dsU "y" = Some (NEMOGrid.y g) /\
    dsize dsV "x" = Some (NEMOGrid.x g) /\
    dsize dsV "y" = Some (NEMOGrid.y g - 1)%Z /\
    (1 <= NEMOGrid.x g)%Z /\ (1 <= NEMOGrid.y g)%Z /\
    ((1 < NEMOGrid.x g)%Z -> dlen dsU "x" = Some (Z.to_nat (NEMOGrid.x g - 1))) /\
    dlen dsU "y" = Some (Z.to_nat (NEMOGrid.y g)) /\
    dlen dsV "x" = Some (Z.to_nat (NEMOGrid.x g)) /\
    ((1 < NEMOGrid.y g)%Z -> dlen dsV "y" = Some (Z.to_nat (NEMOGrid.y g - 1))).
Proof.
  intros Hg Hok.
  destruct (write_ok _ _ _ _ Hg Hok) as (dsU & dsV & EU & EV & FU & FV).
  exists dsU, dsV. split; [done|]. split; [done|].
  destruct (encode_dsize _ _ _ _ _ _ _ _ _ _ _ _ EU) as [U1 U2].
  destruct (encode_dsize _ _ _ _ _ _ _ _ _ _ _ _ EV) as [V1 V2].
  destruct (encode_nonneg _ _ _ _ _ _ _ _ _ _ _ _ EU) as [U3 U4].
  destruct (encode_nonneg _ _ _ _ _ _ _ _ _ _ _ _ EV) as [V3 V4].
  destruct (encode_lattice _ _ _ _ _ _ _ _ _ _ _ _ EU) as [(_ & _ & _ & _ & U5 & U6) _].
  destruct (encode_lattice _ _ _ _ _ _ _ _ _ _ _ _ EV) as [(_ & _ & _ & _ & V5 & V6) _].
  repeat split; auto; try lia.
  - intros. apply U5. lia.
  - apply U6. lia.
  - apply V5. lia.
  - intros. apply V6. lia.
Qed.

Lemma write_declares_staggered_dimensions_witness :
  exists dsU dsV,
    files (snd (write 0 "p" example_world)) !! ("p" +:+ "_U") = Some dsU /\
    files (snd (write 0 "p" example_world)) !! ("p" +:+ "_V") = Some dsV /\
    dsize dsU "x" = Some (NEMOGrid.x example_grid - 1)%Z /\
    dsize dsU "y" = Some (NEMOGrid.y example_grid) /\
    dsize dsV "x" = Some (NEMOGrid.x example_grid) /\
    dsize dsV "y" = Some (NEMOGrid.y example_grid - 1)%Z /\
    (1 <= NEMOGrid.x example_grid)%Z /\ (1 <= NEMOGrid.y example_grid)%Z /\
    ((1 < NEMOGrid.x example_grid)%Z ->
       dlen dsU "x" = Some (Z.to_nat (NEMOGrid.x example_grid - 1))) /\
    dlen dsU "y" = Some (Z.to_nat (NEMOGrid.y example_grid)) /\
    dlen dsV "x" = Some (Z.to_nat (NEMOGrid.x example_grid)) /\
    ((1 < NEMOGrid.y example_grid)%Z ->
       dlen dsV "y" = Some (Z.to_nat (NEMOGrid.y example_grid - 1))).
Proof.
  apply (write_declares_staggered_dimensions 0 "p" example_world example_grid).
  - reflexivity.
  - vm_compute. reflexivity.
Defined.

(** *** C5 *)

Lemma getitem_first_last a n :
  np.shape a = [n] ->
  (forall v, np.getitem a [Idx 0] = Ok v ->
     v = {| np.shape := []; np.data := [nth 0 (np.data a) S754_nan] |}) /\
  (forall v, np.getitem a [Idx (-1)] = Ok v ->
     v = {| np.shape := []; np.data := [nth (n - 1) (np.data a) S754_nan] |}).
Proof.
  intros Hs. unfold np.getitem. rewrite Hs. simpl. unfold norm_index. simpl.
  split; intros v.
  - destruct (0 <? Z.of_nat n)%Z; simpl; [|done]. intros [= <-].
    unfold np.item. rewrite Hs. by simpl.
  - destruct (Z.leb_spec 0 (-1 + Z.of_nat n)); simpl; [|done].
    destruct (Z.ltb_spec (-1 + Z.of_nat n) (Z.of_nat n)); simpl; [|done].
    intros [= <-]. unfold np.item. rewrite Hs. simpl.
    do 3 f_equal. lia.
Qed.

(** C5 (V-file metadata cross-reference).  When [write] succeeds,
    [valid_min] and [valid_max] of the V file's [nav_lon] are [self.lon_u[0]]
    and [self.lon_u[-1]], and those of its [nav_lat] are [self.lat_u[0]] and
    [self.lat_u[-1]]: the first and last entries of the U-stagger lines
    when these are one-dimensional. *)
Theorem write_V_bounds_from_U_lines self filename w g :
  heap w !! self = Some g ->
  fst (write self filename w) = Ok tt ->
  exists dsV lon0 lon1 lat0 lat1,
    files (snd (write self filename w)) !! (filename +:+ "_V") = Some dsV /\
    py.getitem (NEMOGrid.lon_u g) [Idx 0] = Ok lon0 /\
    py.getitem (NEMOGrid.lon_u g) [Idx (-1)] = Ok lon1 /\
    py.getitem (NEMOGrid.lat_u g) [Idx 0] = Ok lat0 /\
    py.getitem (NEMOGrid.lat_u g) [Idx (-1)] = Ok lat1 /\
    vattr dsV "nav_lon" "valid_min" = Some lon0 /\
    vattr dsV "nav_lon" "valid_max" = Some lon1 /\
    vattr dsV "nav_lat" "valid_min" = Some lat0 /\
    vattr dsV "nav_lat" "valid_max" = Some lat1 /\
    (forall a n, NEMOGrid.lon_u g = PArray a -> np.shape a = [n] ->
       np.data lon0 = [nth 0 (np.data a) S754_nan] /\
       np.data lon1 = [nth (n - 1) (np.data a) S754_nan]) /\
    (forall a n, NEMOGrid.lat_u g = PArray a -> np.shape a = [n] ->
       np.data lat0 = [nth 0 (np.data a) S754_nan] /\
       np.data lat1 = [nth (n - 1) (np.data a) S754_nan]).
Proof.
  intros Hg Hok.
  destruct (write_ok _ _ _ _ Hg Hok) as (dsU & dsV & EU & EV & FU & FV).
  destruct (encode_vattr _ _ _ _ _ _ _ _ _ _ _ _ EV)
    as (lon0 & lon1 & lat0 & lat1 & G1 & G2 & G3 & G4 & A1 & A2 & A3 & A4).
  exists dsV, lon0, lon1, lat0, lat1. repeat split; auto.
  - rewrite H in G1. simpl in G1.
    by rewrite (proj1 (getitem_first_last _ _ H0) _ G1).
  - rewrite H in G2. simpl in G2.
    by rewrite (proj2 (getitem_first_last _ _ H0) _ G2).
  - rewrite H in G3. simpl in G3.
    by rewrite (proj1 (getitem_first_last _ _ H0) _ G3).
  - rewrite H in G4. simpl in G4.
    by rewrite (proj2 (getitem_first_last _ _ H0) _ G4).
Qed.

Lemma write_V_bounds_from_U_lines_witness :
  exists dsV lon0 lon1 lat0 lat1,
    files (snd (write 0 "p" example_world)) !! ("p" +:+ "_V") = Some dsV /\
    py.getitem (NEMOGrid.lon_u example_grid) [Idx 0] = Ok lon0 /\
    py.getitem (NEMOGrid.lon_u example_grid) [Idx (-1)] = Ok lon1 /\
    py.getitem (NEMOGrid.lat_u example_grid) [Idx 0] = Ok lat0 /\
    py.getitem (NEMOGrid.lat_u example_grid) [Idx (-1)] = Ok lat1 /\
    vattr dsV "nav_lon" "valid_min" = Some lon0 /\
    vattr dsV "nav_lon" "valid_max" = Some lon1 /\
    vattr dsV "nav_lat" "valid_min" = Some lat0 /\
    vattr dsV "nav_lat" "valid_max" = Some lat1 /\
    (forall a n, NEMOGrid.lon_u example_grid = PArray a -> np.shape a = [n] ->
       np.data lon0 = [nth 0 (np.data a) S754_nan] /\
       np.data lon1 = [nth (n - 1) (np.data a) S754_nan]) /\
    (forall a n, NEMOGrid.lat_u example_grid = PArray a -> np.shape a = [n] ->
       np.data lat0 = [nth 0 (np.data a) S754_nan] /\
       np.data lat1 = [nth (n - 1) (np.data a) S754_nan]).
Proof.
  apply (write_V_bounds_from_U_lines 0 "p" example_world example_grid).
  - reflexivity.
  - vm_compute. reflexivity.
Defined.

(** *** C6 *)

Lemma filter_map_same (name : string) (f : Z -> list selector) l :
  filter (fun p : string * list selector => p.1 = name) (map (fun r => (name, f r)) l)
  = map (fun r => (name, f r)) l.
Proof.
  induction l as [|a l IH]; simpl; [done|].
  rewrite filter_cons_True by done. by rewrite IH.
Qed.

Lemma filter_map_other (name name' : string) (f : Z -> list selector) l :
  name' <> name ->
  filter (fun p : string * list selector => p.1 = name) (map (fun r => (name', f r)) l)
  = [].
Proof.
  intros Hne. induction l as [|a l IH]; simpl; [done|].
  by rewrite filter_cons_False by done.
Qed.

(** C6 (V-file loop counts).  When [write] succeeds, the V file received,
    in this order, one row assignment [nav_lon[y, :]] for each [y] of
    [range(self.y - 1)], one column assignment [nav_lat[:, x]] for each [x]
    of [range(self.x)], and the three assignments of depth, time and field:
    the loop over the latitude index ran exactly [self.y - 1] times and the
    loop over the columns exactly [self.x] times. *)
Theorem write_V_loop_counts self filename w g :
  heap w !! self = Some g ->
  fst (write self filename w) = Ok tt ->
  exists dsV,
    files (snd (write self filename w)) !! (filename +:+ "_V") = Some dsV /\
    nc.puts dsV =
      map (fun y => ("nav_lon", [Idx y; All])) (range (NEMOGrid.y g - 1))
      ++ map (fun x => ("nav_lat", [All; Idx x])) (range (NEMOGrid.x g))
      ++ [("depthv", [All]); ("time_counter", [All]);
          ("vomecrty", [Idx 0; Idx 0; All; All])] /\
    Z.of_nat (count_puts "nav_lon" dsV) = (NEMOGrid.y g - 1)%Z /\
    Z.of_nat (count_puts "nav_lat" dsV) = NEMOGrid.x g.
Proof.
  intros Hg Hok.
  destruct (write_ok _ _ _ _ Hg Hok) as (dsU & dsV & EU & EV & FU & FV).
  exists dsV. split; [done|].
  pose proof (encode_puts _ _ _ _ _ _ _ _ _ _ _ _ EV) as HP.
  destruct (encode_nonneg _ _ _ _ _ _ _ _ _ _ _ _ EV) as [V3 V4].
  split; [done|]. unfold count_puts. rewrite HP, !filter_app.
  split.
  - rewrite filter_map_same, filter_map_other by done. simpl.
    rewrite !filter_cons_False, filter_nil by done.
    rewrite !length_app, length_map, length_range. simpl. lia.
  - rewrite filter_map_other, filter_map_same by done. simpl.
    rewrite !filter_cons_False, filter_nil by done.
    rewrite !length_app, length_map, length_range. simpl. lia.
Qed.

Lemma write_V_loop_counts_witness :
  exists dsV,
    files (snd (write 0 "p" example_world)) !! ("p" +:+ "_V") = Some dsV /\
    nc.puts dsV =
      map (fun y => ("nav_lon", [Idx y; All])) (range (NEMOGrid.y example_grid - 1))
      ++ map (fun x => ("nav_lat", [All; Idx x])) (range (NEMOGrid.x example_grid))
      ++ [("depthv", [All]); ("time_counter", [All]);
          ("vomecrty", [Idx 0; Idx 0; All; All])] /\
    Z.of_nat (count_puts "nav_lon" dsV) = (NEMOGrid.y example_grid - 1)%Z /\
    Z.of_nat (count_puts "nav_lat" dsV) = NEMOGrid.x example_grid.
Proof.
  apply (write_V_loop_counts 0 "p" example_world example_grid).
  - reflexivity.
  - vm_compute. reflexivity.
Defined.

(** *** C9 *)

(** C9 (write leaves the store unchanged).  Whether [write] returns or
    raises, every object, with all its attributes, and the particle list are
    afterwards what they were before. *)
Theorem write_leaves_store_unchanged (self : oid) (filename : string) (w : World) :
  heap (snd (write self filename w)) = heap w /\
  particles_of self (snd (write self filename w)) = particles_of self w.
Proof. apply frames_write. Qed.

(** *** C8 *)

(** Whatever the objects, a particle added through one is in the
    collection read through any other. *)
Lemma add_particle_shared (g1 g2 : oid) (p : Particle) (w : World) :
  particles_of g2 (snd (add_particle g1 p w)) = particles_of g2 w ++ [p].
Proof. reflexivity. Qed.

(** A new object starts with the particles added so far, not with none. *)
Lemma new_not_fresh (p : Particle) (w : World) :
  let w1 := snd (add_particle 0 p w) in
  particles_of (length (heap w1)) (snd (new None w1)) = _particles w ++ [p].
Proof. reflexivity. Qed.

(** C8 (per-instance particle ownership), evaluated: after
    [g1 = NEMOGrid(); g2 = NEMOGrid(); g1.add_particle(7)] the collection of
    [g2] holds particle 7. *)
Theorem add_particle_leaks :
  fst (new None (mkWorld [] [] ∅ [])) = Ok 0 /\
  fst (new None (snd (new None (mkWorld [] [] ∅ [])))) = Ok 1 /\
  particles_of 1 two_grids = [] /\
  particles_of 1 (snd (add_particle 0 7 two_grids)) = [7].
Proof. repeat split. Qed.

(** *** C4 *)





(** *** C10 *)











(** *** [NEMOGrid(filename)] computes [loaded] *)

Lemma out_Dataset_r {B} p (k : string -> M B) w ds :
  files w !! p = Some ds -> (Dataset_r p ≫= k) w = k p w.
Proof. intros H. unfold mbind, M_bind, Dataset_r. by rewrite H. Qed.

Lemma lookup_last_app {A} (l : list A) (a : A) : (l ++ [a]) !! length l = Some a.
Proof. by rewrite lookup_app_r, Nat.sub_diag by lia. Qed.

Lemma out_setattr {B} upd (k : unit -> M B) ps hp g fs so :
  (setattr (length hp) upd ≫= k) (mkWorld ps (hp ++ [g]) fs so)
  = k tt (mkWorld ps (hp ++ [upd g]) fs so).
Proof.
  unfold mbind, M_bind, setattr. simpl. rewrite lookup_last_app.
  by rewrite insert_app_r_alt, Nat.sub_diag by lia.
Qed.

Lemma out_setattr_last upd ps hp g fs so :
  setattr (length hp) upd (mkWorld ps (hp ++ [g]) fs so)
  = (Ok tt, mkWorld ps (hp ++ [upd g]) fs so).
Proof.
  unfold setattr. simpl. rewrite lookup_last_app.
  by rewrite insert_app_r_alt, Nat.sub_diag by lia.
Qed.

Lemma out_attr_last {A B} (f : NEMOGrid.t -> A) (k : A -> M B) ps hp g fs so :
  (attr (length hp) f ≫= k) (mkWorld ps (hp ++ [g]) fs so)
  = k (f g) (mkWorld ps (hp ++ [g]) fs so).
Proof. apply out_attr. simpl. apply lookup_last_app. Qed.

Lemma out_read_file {A B} h (op : nc.Dataset -> result A) (k : A -> M B) pk w ds b :
  files w !! h = Some ds ->
  (forall v, op ds = Ok v -> outcome (k v w) b (pk v)) ->
  outcome ((read_file h op ≫= k) w) b (op ds ≫= pk).
Proof.
  intros Hf H. unfold mbind at 1, M_bind, read_file. rewrite Hf.
  destruct (op ds) as [v|e]; [by apply H | done].
Qed.

Lemma out_variable_of {B} (f : NEMOGrid.t -> option string) name
    (k : pyobj -> M B) pk ps hp g fs so h ds b :
  f g = Some h -> fs !! h = Some ds ->
  (forall a, nc.getitem name [] ds = Ok a ->
     outcome (k (PArray a) (mkWorld ps (hp ++ [g]) fs so)) b (pk a)) ->
  outcome ((variable_of (length hp) f name ≫= k) (mkWorld ps (hp ++ [g]) fs so)) b
          (nc.getitem name [] ds ≫= pk).
Proof.
  intros Hf Hh H. unfold variable_of. rewrite M_assoc, out_attr_last, Hf.
  rewrite M_assoc. apply out_read_file; [done|]. intros a E. by apply H.
Qed.

Ltac in_fields :=
  progress cbn [NEMOGrid.lon_u NEMOGrid.lat_u NEMOGrid.lon_v NEMOGrid.lat_v
                NEMOGrid.U NEMOGrid.V NEMOGrid.dset_u NEMOGrid.dset_v
                NEMOGrid.set_lon_u NEMOGrid.set_lat_u NEMOGrid.set_lon_v
                NEMOGrid.set_lat_v NEMOGrid.set_U NEMOGrid.set_V
                NEMOGrid.set_dset_u NEMOGrid.set_dset_v
                NEMOGrid.set_interp_u NEMOGrid.set_interp_v
                NEMOGrid.defaults py.array py.getitem].

Ltac in_step :=
  cbv beta;
  first
    [ in_fields
    | match goal with
      | |- context [(lift (Ok ?a) ≫= ?k) ?w] =>
          change ((lift (Ok a) ≫= k) w) with (k a w)
      end
    | rewrite M_assoc
    | rewrite result_assoc
    | rewrite out_setattr
    | rewrite out_attr_last
    | eapply out_variable_of; [reflexivity | eassumption | intros ? _]
    | apply out_lift; intros ? _ ].

(** Whatever the state, [NEMOGrid(filename)] ends as [loaded] says. *)
Theorem new_outcome filename w :
  filename <> "" ->
  outcome (new (Some filename) w) (length (heap w)) (loaded filename w).
Proof.
  intros Hne. destruct w as [ps hp fs so].
  unfold new, loaded, __init__. simpl.
  rewrite bool_decide_false by done.
  destruct (fs !! (filename +:+ "_U")) as [dsU|] eqn:HU.
  2:{ simpl. unfold mbind, M_bind, Dataset_r. simpl. by rewrite HU. }
  rewrite !M_assoc. erewrite out_Dataset_r by (simpl; eassumption).
  rewrite M_assoc, out_setattr.
  destruct (fs !! (filename +:+ "_V")) as [dsV|] eqn:HV.
  2:{ simpl. unfold mbind, M_bind, Dataset_r. simpl. by rewrite HV. }
  rewrite !M_assoc. erewrite out_Dataset_r by (simpl; eassumption).
  unfold decode, read_field, interpolator, as_array, getitem.
  repeat in_step. reflexivity.
Qed.

(** Without a file name, and with the empty one, [__init__] reads nothing:
    the object keeps the class defaults. *)
Lemma new_default filename w :
  filename = None \/ filename = Some "" ->
  new filename w
  = (Ok (length (heap w)),
     mkWorld (_particles w) (heap w ++ [NEMOGrid.defaults]) (files w) (stdout w)).
Proof. by intros [-> | ->]. Qed.

(** *** Indexing *)

Lemma ravel_lt shp idx : Forall2 lt idx shp -> ravel shp idx < prod_list shp.
Proof.
  intros H. induction H as [|i n idx shp Hi H IH]; simpl; [lia|].
  fold (prod_list shp). nia.
Qed.

Lemma unravel_ravel shp idx : Forall2 lt idx shp -> unravel shp (ravel shp idx) = idx.
Proof.
  intros H. induction H as [|i n idx shp Hi H IH]; simpl; [done|].
  fold (prod_list shp). pose proof (ravel_lt _ _ H) as Hr.
  rewrite Nat.div_add_l by lia. rewrite Nat.div_small by done.
  rewrite Nat.add_0_r. f_equal.
  rewrite Nat.add_comm, Nat.Div0.mod_add, Nat.mod_small by done. exact IH.
Qed.

Lemma nth_map_seq {A} (f : nat -> A) n k d : k < n -> nth k (map f (seq 0 n)) d = f k.
Proof.
  intros Hk. rewrite (nth_indep _ d (f 0)) by (by rewrite length_map, length_seq).
  rewrite (map_nth f (seq 0 n) 0 k), seq_nth; [done|lia].
Qed.

(** [a[sel]] is an array, its shape the extents of the sliced axes, its
    elements those of [a] at the embedded positions. *)
Lemma np_getitem_ok a sel u :
  np.getitem a sel = Ok u ->
  exists ax, axes sel (np.shape a) = Some ax /\
    np.shape u = sub_shape ax (np.shape a) /\ np.wf u = true /\
    forall sub, Forall2 lt sub (np.shape u) -> np.item u sub = np.item a (embed ax sub).
Proof.
  unfold np.getitem. destruct (axes sel (np.shape a)) as [ax|]; [|done].
  intros [= <-]. exists ax. simpl. repeat split.
  - apply bool_decide_eq_true. unfold np.size. simpl. by rewrite length_map, length_seq.
  - intros sub Hs. unfold np.item at 1. simpl.
    rewrite nth_map_seq by (by apply ravel_lt). by rewrite unravel_ravel.
Qed.

Lemma axes_whole shp : axes [] shp = Some (map (fun _ => None) shp).
Proof. induction shp as [|n shp IH]; simpl; [done|]. by rewrite IH. Qed.




Lemma nc_getitem_whole_fail name ds e :
  nc.getitem name [] ds = Raise e ->
  e = MissingVariableError /\ nc.variables ds !! name = None.
Proof.
  unfold nc.getitem. destruct (nc.variables ds !! name) as [var|]; [|by intros [= <-]].
  by rewrite axes_whole.
Qed.

Lemma nc_getitem_missing name sel ds :
  nc.variables ds !! name = None -> nc.getitem name sel ds = Raise MissingVariableError.
Proof. intros H. unfold nc.getitem. by rewrite H. Qed.


Lemma nan_to_zero_item a idx :
  np.wf a = true -> Forall2 lt idx (np.shape a) ->
  np.item (np.nan_to_zero a) idx = sanitize (np.item a idx).
Proof.
  intros Hwf Hi. apply bool_decide_eq_true in Hwf. unfold np.item, np.nan_to_zero. simpl.
  pose proof (ravel_lt _ _ Hi) as Hr. unfold np.size in Hwf.
  rewrite (nth_indep _ S754_nan (sanitize S754_nan)) by (rewrite length_map; lia).
  apply (map_nth sanitize).
Qed.

Lemma nan_to_zero_wf a : np.wf (np.nan_to_zero a) = np.wf a.
Proof. unfold np.wf, np.size, np.nan_to_zero. simpl. by rewrite length_map. Qed.

Lemma sanitize_not_nan v : isnan (sanitize v) = false.
Proof. by destruct v. Qed.

(** *** The field variable *)










(** *** Reading back *)




Lemma new_ok p w self' :
  p <> "" -> fst (new (Some p) w) = Ok self' ->
  exists dsU dsV g',
    files w !! (p +:+ "_U") = Some dsU /\ files w !! (p +:+ "_V") = Some dsV /\
    decode (p +:+ "_U") (p +:+ "_V") dsU dsV = Ok g' /\
    self' = length (heap w) /\
    snd (new (Some p) w) = mkWorld (_particles w) (heap w ++ [g']) (files w) (stdout w).
Proof.
  intros Hp Hok. pose proof (new_outcome p w Hp) as Ho. unfold loaded in Ho.
  destruct (files w !! (p +:+ "_U")) as [dsU|];
    [|unfold outcome in Ho; cbv iota in Ho; congruence].
  destruct (files w !! (p +:+ "_V")) as [dsV|];
    [|unfold outcome in Ho; cbv iota in Ho; congruence].
  destruct (decode _ _ dsU dsV) as [g'|e] eqn:Ed; unfold outcome in Ho;
    cbn [mbind result_bind] in Ho; [|congruence].
  exists dsU, dsV, g'. rewrite Ho in *. cbn [fst snd] in *.
  repeat split; congruence.
Qed.

Lemma decode_ok hU hV dsU dsV g' :
  decode hU hV dsU dsV = Ok g' ->
  exists lon_u lat_u lon_v lat_v Fu Fv su sv,
    nc.getitem "nav_lon" [] dsU = Ok lon_u /\ nc.getitem "nav_lat" [] dsU = Ok lat_u /\
    nc.getitem "nav_lon" [] dsV = Ok lon_v /\ nc.getitem "nav_lat" [] dsV = Ok lat_v /\
    read_field "vozocrtx" dsU = Ok Fu /\ read_field "vomecrty" dsV = Ok Fv /\
    interpolator lat_u lon_u (np.nan_to_zero Fu) = Ok su /\
    interpolator lat_v lon_v (np.nan_to_zero Fv) = Ok sv /\
    g' = NEMOGrid.mk 0 0 PNone PNone
           (PArray lon_u) (PArray lat_u) (PArray lon_v) (PArray lat_v)
           (PArray (np.nan_to_zero Fu)) (PArray (np.nan_to_zero Fv))
           (Some hU) (Some hV) (Some su) (Some sv).
Proof.
  unfold decode. intros H.
  apply bind_Ok in H as (lon_u & H1 & H). apply bind_Ok in H as (lat_u & H2 & H).
  apply bind_Ok in H as (lon_v & H3 & H). apply bind_Ok in H as (lat_v & H4 & H).
  apply bind_Ok in H as (Fu & H5 & H). apply bind_Ok in H as (Fv & H6 & H).
  apply bind_Ok in H as (su & H7 & H). apply bind_Ok in H as (sv & H8 & H).
  injection H as <-. by exists lon_u, lat_u, lon_v, lat_v, Fu, Fv, su, sv.
Qed.


(** *** C1 *)




(** *** The interpolation primitive at its knots *)

Lemma increasing_cons a l :
  scipy.increasing (a :: l) = true ->
  scipy.increasing l = true /\ forall i x, l !! i = Some x -> (a < x)%Q.
Proof.
  revert a. induction l as [|b l IH]; intros a H.
  - split; [done|]. intros i x Hi. by destruct i.
  - simpl in H. apply andb_true_iff in H as [H1 H2].
    apply negb_true_iff in H1.
    assert (Hab : (a < b)%Q).
    { apply Qnot_le_lt. intros Hle. apply Qle_bool_iff in Hle. congruence. }
    split; [exact H2|]. intros [|i] x Hi; simpl in Hi.
    + by injection Hi as <-.
    + destruct (IH b H2) as [_ Hb]. eapply Qlt_trans; [exact Hab|]. by eapply Hb.
Qed.

Lemma increasing_lt xs i j a b :
  scipy.increasing xs = true -> xs !! i = Some a -> xs !! j = Some b -> i < j ->
  (a < b)%Q.
Proof.
  revert i j. induction xs as [|c xs IH]; intros i j H Hi Hj Hij; [done|].
  destruct (increasing_cons _ _ H) as [H' Hc].
  destruct j as [|j]; [lia|]. destruct i as [|i]; simpl in *.
  - injection Hi as <-. by eapply Hc.
  - eapply (IH i j); eauto. lia.
Qed.

Lemma locate_node xs i x :
  scipy.increasing xs = true -> xs !! i = Some x ->
  scipy.locate xs x = i `min` (length xs - 2).
Proof.
  revert i. induction xs as [|a0 xs IH]; intros i H Hi; [done|].
  destruct (increasing_cons _ _ H) as [H' Ha].
  destruct xs as [|a1 [|a2 xs]]; [simpl; lia|simpl; lia|].
  change (scipy.locate (a0 :: a1 :: a2 :: xs) x)
    with (if Qle_bool a1 x then S (scipy.locate (a1 :: a2 :: xs) x) else 0).
  destruct i as [|i]; simpl in Hi.
  - injection Hi as ->.
    destruct (Qle_bool a1 x) eqn:E; [|done].
    apply Qle_bool_iff in E. specialize (Ha 0 a1 eq_refl).
    exfalso. by apply (Qlt_not_le _ _ Ha).
  - assert (E : Qle_bool a1 x = true).
    { apply Qle_bool_iff. destruct i as [|i]; simpl in Hi.
      - injection Hi as <-. apply Qle_refl.
      - apply Qlt_le_weak. eapply (increasing_lt (a1 :: a2 :: xs) 0 (S i)); eauto. lia. }
    rewrite E. rewrite (IH i H' Hi). simpl length. lia.
Qed.

Lemma last_lookup_default (xs : list Q) d :
  xs <> [] -> xs !! (length xs - 1) = Some (List.last xs d).
Proof.
  induction xs as [|a xs IH]; [done|]. intros _.
  destruct xs as [|b xs]; [done|].
  change (List.last (a :: b :: xs) d) with (List.last (b :: xs) d).
  rewrite <- IH by done. simpl. by rewrite Nat.sub_0_r.
Qed.

Lemma clamp_node xs i x :
  scipy.increasing xs = true -> xs !! i = Some x -> scipy.clamp xs x = x.
Proof.
  intros H Hi. unfold scipy.clamp. destruct xs as [|lo xs]; [done|].
  destruct (increasing_cons _ _ H) as [_ Hlo].
  destruct (Qle_bool x lo) eqn:E1.
  - apply Qle_bool_iff in E1. destruct i as [|i]; simpl in Hi; [congruence|].
    exfalso. apply (Qlt_not_le _ _ (Hlo i x Hi)). exact E1.
  - destruct (Qle_bool (List.last (lo :: xs) lo) x) eqn:E2; [|done].
    apply Qle_bool_iff in E2.
    pose proof (last_lookup_default (lo :: xs) lo ltac:(done)) as HL.
    apply lookup_lt_Some in Hi as Hlt.
    destruct (decide (i = length (lo :: xs) - 1)) as [->|Hne]; [congruence|].
    exfalso. refine (Qlt_not_le _ _ _ E2).
    eapply (increasing_lt _ i (length (lo :: xs) - 1)); eauto. lia.
Qed.

(** The interval used at a knot has the knot at one of its ends. *)
Lemma locate_ends xs i x :
  scipy.increasing xs = true -> 2 <= length xs -> xs !! i = Some x ->
  exists x0 x1,
    xs !! scipy.locate xs x = Some x0 /\ xs !! S (scipy.locate xs x) = Some x1 /\
    (x0 < x1)%Q /\
    (scipy.locate xs x = i /\ x0 = x \/ S (scipy.locate xs x) = i /\ x1 = x).
Proof.
  intros H Hl Hi. rewrite (locate_node _ _ _ H Hi).
  apply lookup_lt_Some in Hi as Hlt.
  destruct (lookup_lt_is_Some_2 xs (i `min` (length xs - 2)) ltac:(lia)) as [x0 H0].
  destruct (lookup_lt_is_Some_2 xs (S (i `min` (length xs - 2))) ltac:(lia)) as [x1 H1].
  exists x0, x1. repeat split; auto.
  - eapply increasing_lt; eauto.
  - destruct (decide (i <= length xs - 2)) as [Hle|Hgt].
    + left. rewrite Nat.min_l in * by done. split; congruence.
    + right. rewrite Nat.min_r in * by lia.
      replace (S (length xs - 2)) with i in * by lia. split; congruence.
Qed.

(** Bilinear interpolation is exact at the knots. *)
Lemma ev_node s i j x y :
  scipy.increasing (scipy.tx s) = true -> scipy.increasing (scipy.ty s) = true ->
  2 <= length (scipy.tx s) -> 2 <= length (scipy.ty s) ->
  (forall i' j', i' < length (scipy.tx s) -> j' < length (scipy.ty s) ->
     is_Some (scipy.node s i' j')) ->
  scipy.tx s !! i = Some x -> scipy.ty s !! j = Some y ->
  exists r q, scipy.ev s x y = Some r /\ scipy.node s i j = Some q /\ (r == q)%Q.
Proof.
  intros Ix Iy Lx Ly Hn Hi Hj. unfold scipy.ev.
  rewrite (clamp_node _ _ _ Ix Hi), (clamp_node _ _ _ Iy Hj).
  destruct (locate_ends _ _ _ Ix Lx Hi) as (x0 & x1 & K0 & K1 & Kx & Cx).
  destruct (locate_ends _ _ _ Iy Ly Hj) as (y0 & y1 & L0 & L1 & Kl & Cy).
  set (k := scipy.locate (scipy.tx s) x) in *.
  set (l := scipy.locate (scipy.ty s) y) in *.
  apply lookup_lt_Some in K0 as Hk0. apply lookup_lt_Some in K1 as Hk1.
  apply lookup_lt_Some in L0 as Hl0. apply lookup_lt_Some in L1 as Hl1.
  destruct (Hn k l Hk0 Hl0) as [z00 Z00]. destruct (Hn k (S l) Hk0 Hl1) as [z01 Z01].
  destruct (Hn (S k) l Hk1 Hl0) as [z10 Z10]. destruct (Hn (S k) (S l) Hk1 Hl1) as [z11 Z11].
  rewrite K0, K1, L0, L1, Z00, Z01, Z10, Z11. simpl.
  assert (Dx : ~ (x1 - x0 == 0)%Q) by lra.
  assert (Dy : ~ (y1 - y0 == 0)%Q) by lra.
  destruct Cx as [[Ek ->]|[Ek ->]], Cy as [[El ->]|[El ->]]; eexists _.
  - exists z00. split; [reflexivity|]. split; [by rewrite <- Ek, <- El|]. field. by split.
  - exists z01. split; [reflexivity|]. split; [by rewrite <- Ek, <- El|]. field. by split.
  - exists z10. split; [reflexivity|]. split; [by rewrite <- Ek, <- El|]. field. by split.
  - exists z11. split; [reflexivity|]. split; [by rewrite <- Ek, <- El|]. field. by split.
Qed.

(** *** Interpolators of a store read from files *)

Lemma build_ok x y z s :
  scipy.build x y z = Ok s ->
  mapM to_Q (np.data x) = Some (scipy.tx s) /\
  mapM to_Q (np.data y) = Some (scipy.ty s) /\
  scipy.increasing (scipy.tx s) = true /\ scipy.increasing (scipy.ty s) = true /\
  2 <= length (scipy.tx s) /\ 2 <= length (scipy.ty s) /\
  np.shape z = [length (scipy.tx s); length (scipy.ty s)] /\ np.wf z = true /\
  scipy.c s = z.
Proof.
  unfold scipy.build.
  destruct (mapM to_Q (np.data x)) as [xs|]; [|done].
  destruct (mapM to_Q (np.data y)) as [ys|]; [|done].
  destruct (_ && _) eqn:E; [|done]. intros [= <-]. simpl.
  repeat (apply andb_true_iff in E as [E ?]).
  repeat match goal with H : bool_decide _ = true |- _ => apply bool_decide_eq_true in H end.
  repeat split; auto.
Qed.

Lemma getitem_plane F z :
  np.getitem F [All; All] = Ok z -> length (np.shape z) = 2 ->
  np.shape F = np.shape z /\
  forall i j, Forall2 lt [i; j] (np.shape z) -> np.item z [i; j] = np.item F [i; j].
Proof.
  intros H Hl. apply np_getitem_ok in H as (ax & Hax & Hs & _ & Hi).
  destruct (np.shape F) as [|n [|m [|k shp]]] eqn:EF; simpl in Hax; try done.
  - injection Hax as <-. split; [done|]. intros i j Hij. by rewrite (Hi _ Hij).
  - rewrite axes_whole in Hax. simpl in Hax. injection Hax as <-.
    rewrite Hs in Hl. simpl in Hl. lia.
Qed.

Lemma sanitize_real v :
  is_finite v || isnan v = true -> is_Some (to_Q (sanitize v)).
Proof. destruct v; simpl; eauto; done. Qed.

Lemma to_Q_sanitize v q :
  to_Q (sanitize v) = Some q ->
  (isnan v = true -> q = 0%Q) /\ (isnan v = false -> to_Q v = Some q).
Proof. destruct v; simpl; intros H; split; intros; congruence. Qed.

(** The interpolator built over a sanitized field is exact at the
    nodes. *)
Lemma interpolator_exact lat lon F s :
  interpolator lat lon (np.nan_to_zero F) = Ok s ->
  np.wf F = true -> real_or_nan F = true -> exact_at_nodes s F.
Proof.
  unfold interpolator. intros H Hwf Hreal.
  apply bind_Ok in H as (x & H1 & H). apply bind_Ok in H as (y & H2 & H).
  apply bind_Ok in H as (z & H3 & H).
  apply build_ok in H as (_ & _ & Ix & Iy & Lx & Ly & Sz & Wz & Hc).
  apply getitem_plane in H3 as [SF Hz]; [|by rewrite Sz].
  simpl in SF. rewrite Sz in SF, Hz.
  assert (Hnode : forall i j, i < length (scipy.tx s) -> j < length (scipy.ty s) ->
            scipy.node s i j = to_Q (sanitize (np.item F [i; j])) /\
            is_Some (scipy.node s i j)).
  { intros i j Hi Hj. unfold scipy.node. rewrite Hc.
    assert (Hij : Forall2 lt [i; j] [length (scipy.tx s); length (scipy.ty s)])
      by (repeat constructor; done).
    rewrite (Hz i j Hij).
    rewrite nan_to_zero_item by (by rewrite ?SF).
    split; [done|]. apply sanitize_real.
    unfold real_or_nan in Hreal. rewrite forallb_forall in Hreal. apply Hreal.
    unfold np.item. apply nth_In. apply bool_decide_eq_true in Hwf. rewrite Hwf.
    unfold np.size. apply ravel_lt. by rewrite SF. }
  intros i j a b Hi Hj.
  destruct (ev_node s i j a b Ix Iy Lx Ly) as (r & q & Hev & Hq & Hrq); auto.
  { intros i' j' Hi' Hj'. by apply Hnode. }
  apply lookup_lt_Some in Hi as Hi'. apply lookup_lt_Some in Hj as Hj'.
  destruct (Hnode i j Hi' Hj') as [Hn _]. rewrite Hn in Hq.
  destruct (to_Q_sanitize _ _ Hq) as [N1 N2].
  exists r, q. repeat split; auto.
  intros HN. rewrite Hrq. by rewrite (N1 HN).
Qed.

Lemma interpolator_lattice lat lon F s :
  interpolator lat lon F = Ok s -> on_lattice (PArray lat) (PArray lon) s.
Proof.
  unfold interpolator. intros H.
  apply bind_Ok in H as (x & H1 & H). apply bind_Ok in H as (y & H2 & H).
  apply bind_Ok in H as (z & H3 & H).
  apply build_ok in H as (Hx & Hy & _). by exists lat, lon, x, y.
Qed.

Lemma read_field_wf name ds F : read_field name ds = Ok F -> np.wf F = true.
Proof.
  unfold read_field. intros H. apply bind_Ok in H as (vu & _ & H).
  by apply np_getitem_ok in H as (ax & _ & _ & Hwf & _).
Qed.

(** *** C3 *)

(** C3 (interpolation at lattice nodes).  A store built from a file pair
    holds, for [U] and for [V], the field [F] read from the file with 0
    for NaN, and an interpolator whose knots are column 0 of the latitude
    lattice and row 0 of the longitude lattice.  When the entries of [F] are
    real numbers or NaN, sampling the interpolator at the knot [(i, j)] gives
    0 where [F[i, j]] is NaN and [F[i, j]] elsewhere.  The interpolation
    primitive is evaluated in exact arithmetic. *)
Theorem interpolation_at_lattice_nodes p w self' :
  p <> "" -> fst (new (Some p) w) = Ok self' ->
  exists g' dsU dsV Fu Fv su sv,
    heap (snd (new (Some p) w)) !! self' = Some g' /\
    files w !! (p +:+ "_U") = Some dsU /\ files w !! (p +:+ "_V") = Some dsV /\
    read_field "vozocrtx" dsU = Ok Fu /\ read_field "vomecrty" dsV = Ok Fv /\
    NEMOGrid.U g' = PArray (np.nan_to_zero Fu) /\
    NEMOGrid.V g' = PArray (np.nan_to_zero Fv) /\
    NEMOGrid.interp_u g' = Some su /\ NEMOGrid.interp_v g' = Some sv /\
    on_lattice (NEMOGrid.lat_u g') (NEMOGrid.lon_u g') su /\
    on_lattice (NEMOGrid.lat_v g') (NEMOGrid.lon_v g') sv /\
    (real_or_nan Fu = true -> exact_at_nodes su Fu) /\
    (real_or_nan Fv = true -> exact_at_nodes sv Fv).
Proof.
  intros Hp Hn.
  destruct (new_ok _ _ _ Hp Hn) as (dsU & dsV & g' & FU & FV & Hd & -> & Hs).
  apply decode_ok in Hd
    as (lon_u' & lat_u' & lon_v' & lat_v' & Fu & Fv & su & sv
        & R1 & R2 & R3 & R4 & R5 & R6 & R7 & R8 & ->).
  eexists _, dsU, dsV, Fu, Fv, su, sv. rewrite Hs. simpl. rewrite lookup_last_app.
  split; [reflexivity|]. simpl.
  split; [done|]. split; [done|]. split; [done|]. split; [done|].
  split; [done|]. split; [done|]. split; [done|]. split; [done|].
  split; [by eapply interpolator_lattice|].
  split; [by eapply interpolator_lattice|].
  split; intros Hr.
  - eapply interpolator_exact; eauto. by eapply read_field_wf.
  - eapply interpolator_exact; eauto. by eapply read_field_wf.
Qed.

Lemma interpolation_at_lattice_nodes_witness :
  exists g' dsU dsV Fu Fv su sv,
    heap (snd (new (Some "p") example_written)) !! 1 = Some g' /\
    files example_written !! ("p" +:+ "_U") = Some dsU /\
    files example_written !! ("p" +:+ "_V") = Some dsV /\
    read_field "vozocrtx" dsU = Ok Fu /\ read_field "vomecrty" dsV = Ok Fv /\
    NEMOGrid.U g' = PArray (np.nan_to_zero Fu) /\
    NEMOGrid.V g' = PArray (np.nan_to_zero Fv) /\
    NEMOGrid.interp_u g' = Some su /\ NEMOGrid.interp_v g' = Some sv /\
    on_lattice (NEMOGrid.lat_u g') (NEMOGrid.lon_u g') su /\
    on_lattice (NEMOGrid.lat_v g') (NEMOGrid.lon_v g') sv /\
    (real_or_nan Fu = true -> exact_at_nodes su Fu) /\
    (real_or_nan Fv = true -> exact_at_nodes sv Fv).
Proof.
  apply (interpolation_at_lattice_nodes "p" example_written 1).
  - discriminate.
  - vm_compute. reflexivity.
Defined.

(** On the example: the U file has NaN at [(1, 1)], its entries are real
    or NaN, and the interpolator of the store read back gives 0 at the knot
    [(1, 1)], which is [(lat, lon) = (2, 2)], and 3 at the knot [(2, 0)]. *)
Lemma example_samples :
  (dsU ← files example_written !! "p_U";
   Some (F ← read_field "vozocrtx" dsU;
         Ok (real_or_nan F, isnan (np.item F [1; 1])))) = Some (Ok (true, true)) /\
  (g' ← heap example_back !! 1; s ← NEMOGrid.interp_u g';
   r ← scipy.ev s 2 2; Some (Qeq_bool r 0)) = Some true /\
  (g' ← heap example_back !! 1; s ← NEMOGrid.interp_u g';
   r ← scipy.ev s 3 1; Some (Qeq_bool r 3)) = Some true.
Proof. repeat split; vm_compute; reflexivity. Qed.

(** *** Failures of construction *)

Lemma new_raise p w dsU dsV e :
  p <> "" ->
  files w !! (p +:+ "_U") = Some dsU -> files w !! (p +:+ "_V") = Some dsV ->
  decode (p +:+ "_U") (p +:+ "_V") dsU dsV = Raise e ->
  fst (new (Some p) w) = Raise e.
Proof.
  intros Hp HU HV Hd. pose proof (new_outcome p w Hp) as Ho.
  unfold loaded in Ho. by rewrite HU, HV, Hd in Ho.
Qed.

Lemma new_missing_file p w :
  p <> "" ->
  files w !! (p +:+ "_U") = None \/ files w !! (p +:+ "_V") = None ->
  fst (new (Some p) w) = Raise MissingFileError.
Proof.
  intros Hp H. pose proof (new_outcome p w Hp) as Ho. unfold loaded in Ho.
  destruct H as [H|H]; rewrite H in Ho; [done|].
  by destruct (files w !! (p +:+ "_U")).
Qed.

Lemma getitem_whole_cases name ds :
  (nc.variables ds !! name = None /\
   nc.getitem name [] ds = Raise MissingVariableError) \/
  (is_Some (nc.variables ds !! name) /\ exists a, nc.getitem name [] ds = Ok a).
Proof.
  unfold nc.getitem. destruct (nc.variables ds !! name) as [var|]; [right|by left].
  rewrite axes_whole. eauto.
Qed.

Ltac read_or_missing name ds :=
  let a := fresh "a" in
  let E := fresh "E" in
  let N := fresh "N" in
  destruct (getitem_whole_cases name ds) as [[N E]|[N [a E]]];
  rewrite E; [reflexivity|]; cbn [mbind result_bind].

Lemma decode_missing_variable hU hV dsU dsV :
  nc.variables dsU !! "nav_lon" = None \/ nc.variables dsU !! "nav_lat" = None \/
  nc.variables dsV !! "nav_lon" = None \/ nc.variables dsV !! "nav_lat" = None \/
  nc.variables dsU !! "vozocrtx" = None ->
  decode hU hV dsU dsV = Raise MissingVariableError.
Proof.
  intros H. unfold decode, read_field.
  read_or_missing "nav_lon" dsU. read_or_missing "nav_lat" dsU.
  read_or_missing "nav_lon" dsV. read_or_missing "nav_lat" dsV.
  read_or_missing "vozocrtx" dsU.
  exfalso. destruct H as [H|[H|[H|[H|H]]]];
    match goal with N : is_Some ?x, H : ?x = None |- _ =>
      rewrite H in N; by destruct N end.
Qed.

Lemma decode_missing_vomecrty hU hV dsU dsV :
  nc.variables dsV !! "vomecrty" = None ->
  match read_field "vozocrtx" dsU with
  | Ok _ => decode hU hV dsU dsV = Raise MissingVariableError
  | Raise _ => is_ok (decode hU hV dsU dsV) = false
  end.
Proof.
  intros H. unfold decode.
  destruct (read_field "vozocrtx" dsU) as [F|e] eqn:EF.
  - read_or_missing "nav_lon" dsU. read_or_missing "nav_lat" dsU.
    read_or_missing "nav_lon" dsV. read_or_missing "nav_lat" dsV.
    unfold read_field at 1. by rewrite (nc_getitem_missing _ _ _ H).
  - destruct (nc.getitem "nav_lon" [] dsU); [|done]. cbn [mbind result_bind].
    destruct (nc.getitem "nav_lat" [] dsU); [|done]. cbn [mbind result_bind].
    destruct (nc.getitem "nav_lon" [] dsV); [|done]. cbn [mbind result_bind].
    by destruct (nc.getitem "nav_lat" [] dsV).
Qed.

(** *** C7 *)

(** C7 (construction errors), as the code has it.  For a non-empty base
    path: with one of the two files absent, construction raises
    MissingFileError.  With both present, it raises MissingVariableError when
    [nav_lon] or [nav_lat] is absent from either file or [vozocrtx] from the
    U file; when [vomecrty] is absent from the V file it fails, with
    MissingVariableError if the slice [[0, 0, :, :]] of [vozocrtx] could be
    read, which comes first. *)
Theorem new_signals_missing p w :
  p <> "" ->
  (files w !! (p +:+ "_U") = None \/ files w !! (p +:+ "_V") = None ->
   fst (new (Some p) w) = Raise MissingFileError) /\
  forall dsU dsV,
    files w !! (p +:+ "_U") = Some dsU -> files w !! (p +:+ "_V") = Some dsV ->
    (nc.variables dsU !! "nav_lon" = None \/ nc.variables dsU !! "nav_lat" = None \/
     nc.variables dsV !! "nav_lon" = None \/ nc.variables dsV !! "nav_lat" = None \/
     nc.variables dsU !! "vozocrtx" = None ->
     fst (new (Some p) w) = Raise MissingVariableError) /\
    (nc.variables dsV !! "vomecrty" = None ->
     is_ok (fst (new (Some p) w)) = false /\
     (is_ok (read_field "vozocrtx" dsU) = true ->
      fst (new (Some p) w) = Raise MissingVariableError)).
Proof.
  intros Hp. split; [by apply new_missing_file|].
  intros dsU dsV HU HV. split.
  - intros H. eapply new_raise; eauto. by apply decode_missing_variable.
  - intros H.
    pose proof (decode_missing_vomecrty (p +:+ "_U") (p +:+ "_V") dsU dsV H) as Hd.
    destruct (read_field "vozocrtx" dsU) as [F|e].
    + rewrite (new_raise _ _ _ _ _ Hp HU HV Hd). by split.
    + destruct (decode _ _ dsU dsV) as [g'|e'] eqn:Ed; [done|].
      rewrite (new_raise _ _ _ _ _ Hp HU HV Ed). by split.
Qed.

Lemma new_signals_missing_witness :
  (files bare_world !! ("p" +:+ "_U") = None \/
   files bare_world !! ("p" +:+ "_V") = None ->
   fst (new (Some "p") bare_world) = Raise MissingFileError) /\
  forall dsU dsV,
    files bare_world !! ("p" +:+ "_U") = Some dsU ->
    files bare_world !! ("p" +:+ "_V") = Some dsV ->
    (nc.variables dsU !! "nav_lon" = None \/ nc.variables dsU !! "nav_lat" = None \/
     nc.variables dsV !! "nav_lon" = None \/ nc.variables dsV !! "nav_lat" = None \/
     nc.variables dsU !! "vozocrtx" = None ->
     fst (new (Some "p") bare_world) = Raise MissingVariableError) /\
    (nc.variables dsV !! "vomecrty" = None ->
     is_ok (fst (new (Some "p") bare_world)) = false /\
     (is_ok (read_field "vozocrtx" dsU) = true ->
      fst (new (Some "p") bare_world) = Raise MissingVariableError)).
Proof. apply (new_signals_missing "p" bare_world). discriminate. Defined.

(** On examples: no file at all, the U file alone, and a V file without
    variables. *)
Lemma new_failures_examples :
  fst (new (Some "p") (mkWorld [] [] ∅ [])) = Raise MissingFileError /\
  fst (new (Some "p") (mkWorld [] [] (<["p_U" := bare_U]> ∅) []))
  = Raise MissingFileError /\
  fst (new (Some "p")
         (mkWorld [] [] (<["p_V" := nc.empty]> (<["p_U" := bare_U]> ∅)) []))
  = Raise MissingVariableError.
Proof. repeat split; vm_compute; reflexivity. Qed.

(** C7 as stated fails twice.  With the empty string as base path no file
    is opened and construction succeeds, whether or not the files ["_U"] and
    ["_V"] exist.  And with both files present and [vomecrty] absent from
    the V file, construction raises the IndexError of the slice
    [vozocrtx[0, 0, :, :]] of a U file without a time record, which is read
    before [vomecrty] is looked up. *)
Lemma new_empty_path_and_early_slice :
  fst (new (Some "") (mkWorld [] [] ∅ [])) = Ok 0 /\
  has_variable "vomecrty" bare_V = false /\
  (has_variable "vozocrtx" <$> files bare_world !! "p_U") = Some true /\
  (has_variable "nav_lon" <$> files bare_world !! "p_V") = Some true /\
  fst (new (Some "p") bare_world) = Raise IndexError.
Proof. repeat split; vm_compute; reflexivity. Qed.

(** *** The state [write] leaves when it fails *)

Lemma tr_lift {A B C} I (x : result A) (k : A -> M B) (pk : A -> result C) K w :
  I w ->
  (forall v, x = Ok v -> track I (k v w) (pk v) K) ->
  track I ((lift x ≫= k) w) (x ≫= pk) K.
Proof. intros HI H. destruct x as [v|e]; [by apply H | done]. Qed.

Lemma tr_on_file {B C} I h op (k : unit -> M B) (pk : nc.Dataset -> result C) K
    ps hp fs so ds :
  I (mkWorld ps hp (<[h := ds]> fs) so) ->
  (forall ds', op ds = Ok ds' ->
     track I (k tt (mkWorld ps hp (<[h := ds']> fs) so)) (pk ds') K) ->
  track I ((on_file h op ≫= k) (mkWorld ps hp (<[h := ds]> fs) so)) (op ds ≫= pk) K.
Proof.
  intros HI H. unfold mbind at 1, M_bind, on_file. simpl.
  rewrite lookup_insert_eq. destruct (op ds) as [ds'|e]; simpl; [|done].
  rewrite insert_insert_eq. by apply H.
Qed.

Lemma tr_on_file_last {B} I h op (k : unit -> M B) K ps hp fs so ds :
  I (mkWorld ps hp (<[h := ds]> fs) so) ->
  (forall ds', op ds = Ok ds' -> K ds' (k tt (mkWorld ps hp (<[h := ds']> fs) so))) ->
  track I ((on_file h op ≫= k) (mkWorld ps hp (<[h := ds]> fs) so)) (op ds) K.
Proof.
  intros HI H. unfold mbind at 1, M_bind, on_file. simpl.
  rewrite lookup_insert_eq. destruct (op ds) as [ds'|e]; simpl; [|done].
  rewrite insert_insert_eq. by apply H.
Qed.

Lemma tr_for {A B C} I (l : list A) (mbody : A -> M unit) pbody
    (k : unit -> M B) (pk : nc.Dataset -> result C) K ps hp fs h so ds :
  (forall a ds0 (k' : unit -> M B) (pk' : nc.Dataset -> result C),
     (forall ds', pbody a ds0 = Ok ds' ->
        track I (k' tt (mkWorld ps hp (<[h := ds']> fs) so)) (pk' ds') K) ->
     track I ((mbody a ≫= k') (mkWorld ps hp (<[h := ds0]> fs) so))
           (pbody a ds0 ≫= pk') K) ->
  (forall ds', forp l pbody ds = Ok ds' ->
     track I (k tt (mkWorld ps hp (<[h := ds']> fs) so)) (pk ds') K) ->
  track I ((for_ l mbody ≫= k) (mkWorld ps hp (<[h := ds]> fs) so))
        (forp l pbody ds ≫= pk) K.
Proof.
  intros Hbody. revert ds k pk. induction l as [|a l IH]; intros ds k pk Hk.
  - by apply Hk.
  - simpl. rewrite M_assoc, result_assoc. apply Hbody. intros ds' E.
    apply IH. intros ds'' E'. apply Hk. simpl. by rewrite E.
Qed.

Lemma close_insert {B} h (k : unit -> M B) ps hp fs so ds :
  (close h ≫= k) (mkWorld ps hp (<[h := ds]> fs) so)
  = k tt (mkWorld ps hp (<[h := ds]> fs) so).
Proof.
  unfold mbind, M_bind, close, on_file. simpl.
  by rewrite lookup_insert_eq, insert_insert_eq.
Qed.

Ltac tr_side := simpl; eexists; reflexivity.

Ltac tr_step :=
  cbv beta;
  first
    [ rewrite M_assoc
    | rewrite result_assoc
    | erewrite out_attr by (simpl; eassumption)
    | apply tr_lift; [tr_side | intros ? _]
    | apply tr_on_file; [tr_side | intros ? _] ].

Ltac tr_body :=
  let Hk := fresh "Hk" in
  let E := fresh "E" in
  intros ? ? ? ? Hk; cbv beta;
  rewrite M_assoc, result_assoc; erewrite out_attr by (simpl; eassumption);
  cbv beta; rewrite M_assoc;
  apply tr_lift; [tr_side | intros ? E];
  apply tr_on_file; [tr_side | intros ? ?];
  apply Hk; rewrite E; assumption.

Ltac tr_loop := apply tr_for; [ tr_body | intros ? _ ].

(** Whatever happens, [write] leaves the objects, the particles and every
    other file alone and prints its line.  A failure while the U file is
    built leaves the path of the V file as it was; a failure while the V
    file is built leaves the finished U file. *)
Lemma write_states self filename w g :
  heap w !! self = Some g ->
  let line := "Generating NEMO grid output: " +:+ filename in
  track
    (fun w' => exists ds,
       w' = mkWorld (_particles w) (heap w)
              (<[filename +:+ "_U" := ds]> (files w)) (stdout w ++ [line]))
    (write self filename w) (encode_U g)
    (fun dsU r =>
       track
         (fun w' => exists ds,
            w' = mkWorld (_particles w) (heap w)
                   (<[filename +:+ "_V" := ds]>
                      (<[filename +:+ "_U" := dsU]> (files w)))
                   (stdout w ++ [line]))
         r (encode_V g)
         (fun dsV r =>
            r = (Ok tt,
                 mkWorld (_particles w) (heap w)
                   (<[filename +:+ "_V" := dsV]>
                      (<[filename +:+ "_U" := dsU]> (files w)))
                   (stdout w ++ [line])))).
Proof.
  intros Hg line. destruct w as [ps hp fs so]. simpl in Hg. subst line.
  unfold write, encode_U, encode_V, encode, header, lon_rows, lat_cols,
    payload, as_array, getitem, size_of, path_local.
  change ((print ?s ≫= ?k) (mkWorld ps hp fs so))
    with (k tt (mkWorld ps hp fs (so ++ [s]))).
  cbv beta.
  change ((Dataset_w ?p ≫= ?k) (mkWorld ps hp fs ?so'))
    with (k p (mkWorld ps hp (<[p := nc.empty]> fs) so')).
  cbn [_particles heap files stdout].
  repeat tr_step.
  tr_loop. repeat tr_step.
  tr_loop. repeat tr_step.
  apply tr_on_file_last; [tr_side|]. intros dsU _. cbv beta.
  rewrite close_insert.
  change ((Dataset_w ?p ≫= ?k) (mkWorld ps hp ?fs' ?so'))
    with (k p (mkWorld ps hp (<[p := nc.empty]> fs') so')).
  repeat tr_step.
  tr_loop. repeat tr_step.
  tr_loop. repeat tr_step.
  apply tr_on_file_last; [tr_side|]. intros dsV _. cbv beta.
  unfold close, on_file. simpl. by rewrite lookup_insert_eq, insert_insert_eq.
Qed.

(** The three ways [write] can end. *)
Lemma write_cases self filename w g :
  heap w !! self = Some g ->
  let line := "Generating NEMO grid output: " +:+ filename in
  (exists e ds,
     encode_U g = Raise e /\
     write self filename w =
       (Raise e, mkWorld (_particles w) (heap w)
                   (<[filename +:+ "_U" := ds]> (files w)) (stdout w ++ [line])))
  \/ (exists dsU e ds,
        encode_U g = Ok dsU /\ encode_V g = Raise e /\
        write self filename w =
          (Raise e, mkWorld (_particles w) (heap w)
                      (<[filename +:+ "_V" := ds]>
                         (<[filename +:+ "_U" := dsU]> (files w)))
                      (stdout w ++ [line])))
  \/ (exists dsU dsV,
        encode_U g = Ok dsU /\ encode_V g = Ok dsV /\
        write self filename w =
          (Ok tt, mkWorld (_particles w) (heap w)
                    (<[filename +:+ "_V" := dsV]>
                       (<[filename +:+ "_U" := dsU]> (files w)))
                    (stdout w ++ [line]))).
Proof.
  intros Hg line. pose proof (write_states self filename w g Hg) as H.
  cbv zeta in H. unfold track in H.
  destruct (write self filename w) as [r w'] eqn:Er.
  destruct (encode_U g) as [dsU|e].
  - destruct (encode_V g) as [dsV|e].
    + right; right. by exists dsU, dsV.
    + right; left. destruct H as [H1 [ds H2]]. simpl in *. subst.
      by exists dsU, e, ds.
  - left. destruct H as [H1 [ds H2]]. simpl in *. subst. by exists e, ds.
Qed.

(** *** What [write] does besides the two files *)





(** *** The order of the two files *)



(** *** Stores that cannot be written *)

Lemma encode_U_needs_x g : (NEMOGrid.x g <= 0)%Z -> encode_U g = Raise ValueError.
Proof.
  intros Hx. unfold encode_U, encode, header, nc.createDimension. simpl.
  rewrite lookup_empty. by destruct (Z.ltb_spec (NEMOGrid.x g - 1) 0); [|lia].
Qed.




(** A store as the constructor leaves it cannot be written, whether it
    was built empty or read from a file pair: [x] is 0, and [write] fails
    at its first call, which declares a dimension of size [x - 1]. *)
Theorem new_store_cannot_be_written f w s q :
  fst (new f w) = Ok s ->
  is_ok (fst (write s q (snd (new f w)))) = false.
Proof.
  intros Hn.
  assert (exists g', heap (snd (new f w)) !! s = Some g' /\ NEMOGrid.x g' = 0%Z)
    as (g' & Hg & Hx).
  { destruct (decide (f = None \/ f = Some "")) as [Hf|Hf].
    - rewrite (new_default f w Hf) in *. simpl in *. injection Hn as <-.
      exists NEMOGrid.defaults. by rewrite lookup_last_app.
    - destruct f as [p|]; [|by destruct Hf; left].
      assert (Hp : p <> "") by (intros ->; apply Hf; by right).
      destruct (new_ok _ _ _ Hp Hn) as (dsU & dsV & g' & _ & _ & Hd & -> & Hs).
      exists g'. rewrite Hs. simpl. rewrite lookup_last_app. split; [done|].
      apply decode_ok in Hd as (? & ? & ? & ? & ? & ? & ? & ? & _ & _ & _ & _ & _ & _ & _ & _ & ->).
      done. }
  pose proof (write_outcome s q _ g' Hg) as Ho. unfold written in Ho.
  rewrite encode_U_needs_x in Ho by lia. simpl in Ho. by rewrite Ho.
Qed.

Lemma new_store_cannot_be_written_witness :
  is_ok (fst (write 1 "q" (snd (new (Some "p") example_written)))) = false.
Proof.
  apply (new_store_cannot_be_written (Some "p") example_written 1 "q").
  vm_compute. reflexivity.
Defined.

(** *** Writing again *)

(** [write] overwrites: after a successful [write], a second [write] of
    the same store to the same name succeeds and leaves the same files. *)
Theorem write_again_same_files self filename w g :
  heap w !! self = Some g ->
  fst (write self filename w) = Ok tt ->
  fst (write self filename (snd (write self filename w))) = Ok tt /\
  files (snd (write self filename (snd (write self filename w))))
  = files (snd (write self filename w)).
Proof.
  intros Hg Hok. pose proof (suffix_U_V filename) as Hne.
  destruct (write_cases self filename w g Hg)
    as [(e & ds & EU & E)|[(dsU & e & ds & EU & EV & E)|(dsU & dsV & EU & EV & E)]];
    rewrite E in Hok; try done.
  rewrite E. simpl.
  set (w1 := mkWorld _ _ _ _).
  destruct (write_cases self filename w1 g Hg)
    as [(e & ds & EU' & E')|[(dsU' & e & ds & EU' & EV' & E')|(dsU' & dsV' & EU' & EV' & E')]];
    try congruence.
  rewrite E'. simpl. split; [done|].
  rewrite EU in EU'. rewrite EV in EV'. injection EU' as <-. injection EV' as <-.
  apply map_eq. intros k.
  destruct (decide (k = filename +:+ "_V")) as [->|HV];
    [by rewrite !lookup_insert_eq|].
  rewrite !(lookup_insert_ne _ (filename +:+ "_V")) by done.
  destruct (decide (k = filename +:+ "_U")) as [->|HU];
    [by rewrite !lookup_insert_eq|].
  by rewrite !lookup_insert_ne by done.
Qed.

Lemma write_again_same_files_witness :
  fst (write 0 "p" (snd (write 0 "p" crowded_world))) = Ok tt /\
  files (snd (write 0 "p" (snd (write 0 "p" crowded_world))))
  = files (snd (write 0 "p" crowded_world)).
Proof.
  apply (write_again_same_files 0 "p" crowded_world example_grid).
  - reflexivity.
  - vm_compute. reflexivity.
Defined.

(** *** The U file: bounds and assignments *)



(** When [write] succeeds, the U file received, in this order, one row
    assignment [nav_lon[y, :]] for each [y] of [range(self.y)], one column
    assignment [nav_lat[:, x]] for each [x] of [range(self.x - 1)], and the
    assignments of depth, time and field: [self.y] rows and [self.x - 1]
    columns. *)
Theorem write_U_loop_counts self filename w g :
  heap w !! self = Some g ->
  fst (write self filename w) = Ok tt ->
  exists dsU,
    files (snd (write self filename w)) !! (filename +:+ "_U") = Some dsU /\
    nc.puts dsU =
      map (fun y => ("nav_lon", [Idx y; All])) (range (NEMOGrid.y g))
      ++ map (fun x => ("nav_lat", [All; Idx x])) (range (NEMOGrid.x g - 1))
      ++ [("depthu", [All]); ("time_counter", [All]);
          ("vozocrtx", [Idx 0; Idx 0; All; All])] /\
    Z.of_nat (count_puts "nav_lon" dsU) = NEMOGrid.y g /\
    Z.of_nat (count_puts "nav_lat" dsU) = (NEMOGrid.x g - 1)%Z.
Proof.
  intros Hg Hok.
  destruct (write_ok _ _ _ _ Hg Hok) as (dsU & dsV & EU & EV & FU & FV).
  exists dsU. split; [done|].
  pose proof (encode_puts _ _ _ _ _ _ _ _ _ _ _ _ EU) as HP.
  destruct (encode_nonneg _ _ _ _ _ _ _ _ _ _ _ _ EU) as [U3 U4].
  split; [done|]. unfold count_puts. rewrite HP, !filter_app.
  split.
  - rewrite filter_map_same, filter_map_other by done. simpl.
    rewrite !filter_cons_False, filter_nil by done.
    rewrite !length_app, length_map, length_range. simpl. lia.
  - rewrite filter_map_other, filter_map_same by done. simpl.
    rewrite !filter_cons_False, filter_nil by done.
    rewrite !length_app, length_map, length_range. simpl. lia.
Qed.

Lemma write_U_loop_counts_witness :
  exists dsU,
    files (snd (write 0 "p" example_world)) !! ("p" +:+ "_U") = Some dsU /\
    nc.puts dsU =
      map (fun y => ("nav_lon", [Idx y; All])) (range (NEMOGrid.y example_grid))
      ++ map (fun x => ("nav_lat", [All; Idx x])) (range (NEMOGrid.x example_grid - 1))
      ++ [("depthu", [All]); ("time_counter", [All]);
          ("vozocrtx", [Idx 0; Idx 0; All; All])] /\
    Z.of_nat (count_puts "nav_lon" dsU) = NEMOGrid.y example_grid /\
    Z.of_nat (count_puts "nav_lat" dsU) = (NEMOGrid.x example_grid - 1)%Z.
Proof.
  apply (write_U_loop_counts 0 "p" example_world example_grid).
  - reflexivity.
  - vm_compute. reflexivity.
Defined.

(** *** The velocity fields in the files *)



(** *** The layout of the files *)

Lemma stable_vdims vs ws n z : stable vs ws (fun ds => vdims ds n = z).
Proof.
  split; intros name ? v ds ds' _ H HP.
  - by rewrite (setitem_vdims _ _ _ _ _ _ H).
  - by rewrite (setncattr_vdims _ _ _ _ _ _ H).
Qed.

Lemma stable_vtype vs ws n z : stable vs ws (fun ds => vtype ds n = z).
Proof.
  split; intros name ? v ds ds' _ H HP.
  - by rewrite (setitem_vtype _ _ _ _ _ _ H).
  - by rewrite (setncattr_vtype _ _ _ _ _ _ H).
Qed.

Lemma stable_absent vs ws n : stable vs ws (fun ds => has_variable n ds = false).
Proof.
  unfold has_variable. split.
  - intros name sel v ds ds' _ H HP.
    apply setitem_ok in H as (var & ax & lens & Hv & _ & _ & _ & Hvs & _).
    rewrite Hvs. destruct (decide (name = n)) as [->|Hne].
    + by rewrite Hv in HP.
    + by rewrite lookup_insert_ne.
  - intros name a v ds ds' _ H HP.
    apply setncattr_ok in H as (var & Hv & _ & Hvs & _).
    rewrite Hvs. destruct (decide (name = n)) as [->|Hne].
    + by rewrite Hv in HP.
    + by rewrite lookup_insert_ne.
Qed.

Lemma header_absent dname fname nx ny depth ds n :
  header dname fname nx ny depth = Ok ds ->
  n ∉ ["nav_lon"; "nav_lat"; dname; "time_counter"; fname] ->
  has_variable n ds = false.
Proof.
  unfold header. intros H Hn.
  rewrite !not_elem_of_cons in Hn. destruct Hn as (N1 & N2 & N3 & N4 & N5 & _).
  apply bind_Ok in H as (ds1 & H1 & H). apply bind_Ok in H as (ds2 & H2 & H).
  apply bind_Ok in H as (k & _ & H).
  apply bind_Ok in H as (ds3 & H3 & H). apply bind_Ok in H as (ds4 & H4 & H).
  apply bind_Ok in H as (ds5 & H5 & H). apply bind_Ok in H as (ds6 & H6 & H).
  apply bind_Ok in H as (ds7 & H7 & H). apply bind_Ok in H as (ds8 & H8 & H).
  apply createDimension_ok in H1 as (_ & _ & _ & V1 & _).
  apply createDimension_ok in H2 as (_ & _ & _ & V2 & _).
  apply createDimension_ok in H3 as (_ & _ & _ & V3 & _).
  apply createDimension_ok in H4 as (_ & _ & _ & V4 & _).
  apply createVariable_ok in H5 as (_ & _ & V5 & _).
  apply createVariable_ok in H6 as (_ & _ & V6 & _).
  apply createVariable_ok in H7 as (_ & _ & V7 & _).
  apply createVariable_ok in H8 as (_ & _ & V8 & _).
  apply createVariable_ok in H as (_ & _ & V9 & _).
  unfold has_variable. rewrite V9, V8, V7, V6, V5, V4, V3, V2, V1.
  rewrite !lookup_insert_ne by done. unfold nc.empty. simpl.
  by rewrite lookup_empty.
Qed.

(** The variables of a file [encode] built, their dimensions and element
    types, and the declared sizes of the depth and time dimensions. *)
Theorem encode_layout dname fname nx ny depth time lon lat lon_ref lat_ref field ds :
  encode dname fname nx ny depth time lon lat lon_ref lat_ref field = Ok ds ->
  (vdims ds "nav_lon" = Some ["y"; "x"] /\ vtype ds "nav_lon" = Some float32) /\
  (vdims ds "nav_lat" = Some ["y"; "x"] /\ vtype ds "nav_lat" = Some float32) /\
  (vdims ds dname = Some [dname] /\ vtype ds dname = Some float32) /\
  (vdims ds "time_counter" = Some ["time_counter"] /\
   vtype ds "time_counter" = Some float64) /\
  (vdims ds fname = Some ["time_counter"; dname; "y"; "x"] /\
   vtype ds fname = Some float32) /\
  (forall n, n ∉ ["nav_lon"; "nav_lat"; dname; "time_counter"; fname] ->
     has_variable n ds = false) /\
  (exists k, py.size depth = Ok k /\ dsize ds dname = Some (Z.of_nat k)) /\
  dsize ds "time_counter" = Some 0%Z.
Proof.
  intros H. unfold encode in H.
  apply bind_Ok in H as (ds1 & H1 & H). apply bind_Ok in H as (ds2 & H2 & H).
  apply bind_Ok in H as (ds3 & H3 & H4).
  destruct (header_ok _ _ _ _ _ _ H1) as (k & Hk & Hs).
  assert (St : forall P : nc.Dataset -> Prop,
            stable ["nav_lon"; "nav_lat"; dname; "time_counter"; fname]
                   ["nav_lon"; "nav_lat"] P -> P ds1 -> P ds).
  { intros P HP. by apply (stable_all P _ _ _ _ _ _ _ _ _ _ _ _ _ _ _ HP H2 H3 H4). }
  repeat split.
  - apply (St (fun ds => vdims ds "nav_lon" = _)); [apply stable_vdims|].
    unfold vdims. by rewrite (hs_lon _ _ _ _ _ _ Hs).
  - apply (St (fun ds => vtype ds "nav_lon" = _)); [apply stable_vtype|].
    unfold vtype. by rewrite (hs_lon _ _ _ _ _ _ Hs).
  - apply (St (fun ds => vdims ds "nav_lat" = _)); [apply stable_vdims|].
    unfold vdims. by rewrite (hs_lat _ _ _ _ _ _ Hs).
  - apply (St (fun ds => vtype ds "nav_lat" = _)); [apply stable_vtype|].
    unfold vtype. by rewrite (hs_lat _ _ _ _ _ _ Hs).
  - apply (St (fun ds => vdims ds dname = _)); [apply stable_vdims|].
    unfold vdims. by rewrite (hs_dv _ _ _ _ _ _ Hs).
  - apply (St (fun ds => vtype ds dname = _)); [apply stable_vtype|].
    unfold vtype. by rewrite (hs_dv _ _ _ _ _ _ Hs).
  - apply (St (fun ds => vdims ds "time_counter" = _)); [apply stable_vdims|].
    unfold vdims. by rewrite (hs_tv _ _ _ _ _ _ Hs).
  - apply (St (fun ds => vtype ds "time_counter" = _)); [apply stable_vtype|].
    unfold vtype. by rewrite (hs_tv _ _ _ _ _ _ Hs).
  - apply (St (fun ds => vdims ds fname = _)); [apply stable_vdims|].
    unfold vdims. by rewrite (hs_fv _ _ _ _ _ _ Hs).
  - apply (St (fun ds => vtype ds fname = _)); [apply stable_vtype|].
    unfold vtype. by rewrite (hs_fv _ _ _ _ _ _ Hs).
  - intros n Hn. apply (St (fun ds => has_variable n ds = false));
      [apply stable_absent|]. by eapply header_absent.
  - exists k. split; [done|].
    apply (St (fun ds => dsize ds dname = _)); [apply stable_dsize|].
    unfold dsize. by rewrite (hs_d _ _ _ _ _ _ Hs).
  - apply (St (fun ds => dsize ds "time_counter" = _)); [apply stable_dsize|].
    unfold dsize. by rewrite (hs_t _ _ _ _ _ _ Hs).
Qed.

(** When [write] succeeds, each file holds five variables and no other:
    the two coordinate lattices over [(y, x)], the depth vector, the time
    vector and the velocity over [(time_counter, depth, y, x)]; all are
    float32 but [time_counter], which is float64.  The depth dimension is
    declared with the size of [depth], and the time dimension is
    unlimited. *)
Theorem write_declares_layout self filename w g :
  heap w !! self = Some g ->
  fst (write self filename w) = Ok tt ->
  exists dsU dsV k,
    files (snd (write self filename w)) !! (filename +:+ "_U") = Some dsU /\
    files (snd (write self filename w)) !! (filename +:+ "_V") = Some dsV /\
    py.size (NEMOGrid.depth g) = Ok k /\
    declared dsU "nav_lon" ["y"; "x"] float32 /\
    declared dsU "nav_lat" ["y"; "x"] float32 /\
    declared dsU "depthu" ["depthu"] float32 /\
    declared dsU "time_counter" ["time_counter"] float64 /\
    declared dsU "vozocrtx" ["time_counter"; "depthu"; "y"; "x"] float32 /\
    (forall n, n ∉ ["nav_lon"; "nav_lat"; "depthu"; "time_counter"; "vozocrtx"] ->
       has_variable n dsU = false) /\
    dsize dsU "depthu" = Some (Z.of_nat k) /\ dsize dsU "time_counter" = Some 0%Z /\
    declared dsV "nav_lon" ["y"; "x"] float32 /\
    declared dsV "nav_lat" ["y"; "x"] float32 /\
    declared dsV "depthv" ["depthv"] float32 /\
    declared dsV "time_counter" ["time_counter"] float64 /\
    declared dsV "vomecrty" ["time_counter"; "depthv"; "y"; "x"] float32 /\
    (forall n, n ∉ ["nav_lon"; "nav_lat"; "depthv"; "time_counter"; "vomecrty"] ->
       has_variable n dsV = false) /\
    dsize dsV "depthv" = Some (Z.of_nat k) /\ dsize dsV "time_counter" = Some 0%Z.
Proof.
  intros Hg Hok.
  destruct (write_ok _ _ _ _ Hg Hok) as (dsU & dsV & EU & EV & FU & FV).
  destruct (encode_layout _ _ _ _ _ _ _ _ _ _ _ _ EU)
    as ([] & [] & [] & [] & [] & U6 & (k & Hk & U7) & U8).
  destruct (encode_layout _ _ _ _ _ _ _ _ _ _ _ _ EV)
    as ([] & [] & [] & [] & [] & V6 & (k' & Hk' & V7) & V8).
  rewrite Hk in Hk'. injection Hk' as <-.
  exists dsU, dsV, k. unfold declared. by repeat split.
Qed.

Lemma write_declares_layout_witness :
  exists dsU dsV k,
    files (snd (write 0 "p" example_world)) !! ("p" +:+ "_U") = Some dsU /\
    files (snd (write 0 "p" example_world)) !! ("p" +:+ "_V") = Some dsV /\
    py.size (NEMOGrid.depth example_grid) = Ok k /\
    declared dsU "nav_lon" ["y"; "x"] float32 /\
    declared dsU "nav_lat" ["y"; "x"] float32 /\
    declared dsU "depthu" ["depthu"] float32 /\
    declared dsU "time_counter" ["time_counter"] float64 /\
    declared dsU "vozocrtx" ["time_counter"; "depthu"; "y"; "x"] float32 /\
    (forall n, n ∉ ["nav_lon"; "nav_lat"; "depthu"; "time_counter"; "vozocrtx"] ->
       has_variable n dsU = false) /\
    dsize dsU "depthu" = Some (Z.of_nat k) /\ dsize dsU "time_counter" = Some 0%Z /\
    declared dsV "nav_lon" ["y"; "x"] float32 /\
    declared dsV "nav_lat" ["y"; "x"] float32 /\
    declared dsV "depthv" ["depthv"] float32 /\
    declared dsV "time_counter" ["time_counter"] float64 /\
    declared dsV "vomecrty" ["time_counter"; "depthv"; "y"; "x"] float32 /\
    (forall n, n ∉ ["nav_lon"; "nav_lat"; "depthv"; "time_counter"; "vomecrty"] ->
       has_variable n dsV = false) /\
    dsize dsV "depthv" = Some (Z.of_nat k) /\ dsize dsV "time_counter" = Some 0%Z.
Proof.
  apply (write_declares_layout 0 "p" example_world example_grid).
  - reflexivity.
  - vm_compute. reflexivity.
Defined.

(** *** Depth and time in the files *)






(** *** Attaching particles *)

(** Particles attached one after the other, through whatever object, are
    kept in the order of attachment after those already there, duplicates
    included; attaching never fails and changes nothing else. *)
Theorem add_particles_in_order (self : oid) (ps : list Particle) (w : World) :
  for_ ps (add_particle self) w
  = (Ok tt, mkWorld (particles_of self w ++ ps) (heap w) (files w) (stdout w)).
Proof.
  revert w. induction ps as [|p ps IH]; intros [qs hp fs so]; simpl.
  - unfold particles_of. simpl. by rewrite app_nil_r.
  - unfold mbind, M_bind, add_particle at 1. simpl. rewrite IH.
    unfold particles_of. simpl. by rewrite <- app_assoc.
Qed.

(** *** What construction leaves alone *)

Lemma init_ret self {A} (a : A) : init_only self (mret a : M A).
Proof. by intros w. Qed.

Lemma init_bind self {A B} (m : M A) (k : A -> M B) :
  init_only self m -> (forall a, init_only self (k a)) -> init_only self (m ≫= k).
Proof.
  intros Hm Hk w. unfold mbind, M_bind.
  destruct (Hm w) as (H1 & H2 & H3 & H4 & H5).
  destruct (m w) as [[a|e] w1]; simpl in *; [|done].
  destruct (Hk a w1) as (K1 & K2 & K3 & K4 & K5).
  repeat split; try congruence. intros i Hi. by rewrite K5, H5.
Qed.

Lemma init_lift self {A} (r : result A) : init_only self (lift r).
Proof. by intros w. Qed.

Lemma init_raise self {A} e : init_only self (raise e : M A).
Proof. by intros w. Qed.

Lemma init_attr self {A} (f : NEMOGrid.t -> A) : init_only self (attr self f).
Proof. intros w. unfold attr. by destruct (heap w !! self). Qed.

Lemma init_setattr self upd : init_only self (setattr self upd).
Proof.
  intros w. unfold setattr. destruct (heap w !! self) as [g|]; [|done]. simpl.
  repeat split; [by rewrite length_insert|].
  intros i Hi. by rewrite list_lookup_insert_ne.
Qed.

Lemma init_Dataset_r self p : init_only self (Dataset_r p).
Proof. intros w. unfold Dataset_r. by destruct (files w !! p). Qed.

Lemma init_read_file self {A} h (op : nc.Dataset -> result A) :
  init_only self (read_file h op).
Proof. intros w. unfold read_file. by destruct (files w !! h). Qed.

Lemma init_variable_of self f name : init_only self (variable_of self f name).
Proof.
  unfold variable_of. apply init_bind; [apply init_attr|]. intros [h|].
  - apply init_bind; [apply init_read_file|]. intros a. apply init_ret.
  - apply init_raise.
Qed.

Ltac init_step :=
  first [ apply init_variable_of | apply init_attr | apply init_setattr
        | apply init_Dataset_r | apply init_lift | apply init_ret
        | apply init_bind; [|intros ?] ].

Lemma init_only_init self filename : init_only self (__init__ self filename).
Proof.
  unfold __init__. destruct filename as [p|]; [|apply init_ret].
  case_bool_decide; [apply init_ret|].
  unfold as_array, getitem. repeat init_step.
Qed.

Lemma init_only_new_body self filename :
  init_only self (__init__ self filename ;; mret self).
Proof. apply init_bind; [apply init_only_init|]. intros _. apply init_ret. Qed.

(** Construction never writes.  Whether [NEMOGrid(filename)] returns or
    raises, and whatever [filename] is, the files, the output and the
    particle list are what they were, and so is every object that existed:
    the one thing added is the new object. *)
Theorem new_only_adds_an_object (filename : option string) (w : World) :
  files (snd (new filename w)) = files w /\
  stdout (snd (new filename w)) = stdout w /\
  _particles (snd (new filename w)) = _particles w /\
  length (heap (snd (new filename w))) = S (length (heap w)) /\
  forall i g, heap w !! i = Some g -> heap (snd (new filename w)) !! i = Some g.
Proof.
  pose proof (init_only_new_body (length (heap w)) filename
                (mkWorld (_particles w) (heap w ++ [NEMOGrid.defaults])
                   (files w) (stdout w))) as H.
  match type of H with
  | _particles (snd ?t) = _ /\ _ => change (new filename w) with t
  end.
  destruct H as (H1 & H2 & H3 & H4 & H5).
  rewrite H1, H2, H3, H4. simpl. repeat split.
  - rewrite length_app. simpl. lia.
  - intros i g Hi. apply lookup_lt_Some in Hi as Hlt.
    rewrite H5 by lia. simpl. by rewrite lookup_app_l.
Qed.

(** *** The fields of a store read from files *)

(** A store built from a file pair holds no NaN: not in [U], not in [V],
    and not at any knot of the two interpolators. *)
Theorem new_fields_have_no_nan p w s :
  p <> "" -> fst (new (Some p) w) = Ok s ->
  exists g' F G su sv,
    heap (snd (new (Some p) w)) !! s = Some g' /\
    NEMOGrid.U g' = PArray F /\ NEMOGrid.V g' = PArray G /\
    NEMOGrid.interp_u g' = Some su /\ NEMOGrid.interp_v g' = Some sv /\
    Forall (fun v => isnan v = false) (np.data F) /\
    Forall (fun v => isnan v = false) (np.data G) /\
    (forall i j, i < length (scipy.tx su) -> j < length (scipy.ty su) ->
       isnan (np.item (scipy.c su) [i; j]) = false) /\
    (forall i j, i < length (scipy.tx sv) -> j < length (scipy.ty sv) ->
       isnan (np.item (scipy.c sv) [i; j]) = false).
Proof.
  intros Hp Hn.
  destruct (new_ok _ _ _ Hp Hn) as (dsU & dsV & g' & FU & FV & Hd & -> & Hs).
  apply decode_ok in Hd
    as (lon_u' & lat_u' & lon_v' & lat_v' & Fu & Fv & su & sv
        & R1 & R2 & R3 & R4 & R5 & R6 & R7 & R8 & ->).
  eexists _, (np.nan_to_zero Fu), (np.nan_to_zero Fv), su, sv.
  rewrite Hs. simpl. rewrite lookup_last_app.
  split; [reflexivity|]. simpl.
  split; [done|]. split; [done|]. split; [done|]. split; [done|].
  assert (Hsan : forall F, Forall (fun v => isnan v = false)
                             (np.data (np.nan_to_zero F))).
  { intros F. unfold np.nan_to_zero. simpl. apply Forall_fmap, Forall_forall.
    intros v _. apply sanitize_not_nan. }
  assert (Hknots : forall lat lon F s0,
            np.wf F = true -> interpolator lat lon (np.nan_to_zero F) = Ok s0 ->
            forall i j, i < length (scipy.tx s0) -> j < length (scipy.ty s0) ->
              isnan (np.item (scipy.c s0) [i; j]) = false).
  { intros lat lon F s0 Hwf H i j Hi Hj. unfold interpolator in H.
    apply bind_Ok in H as (x & H1 & H). apply bind_Ok in H as (y & H2 & H).
    apply bind_Ok in H as (z & H3 & H).
    apply build_ok in H as (_ & _ & _ & _ & _ & _ & Sz & _ & Hc).
    apply getitem_plane in H3 as [SF Hz]; [|by rewrite Sz].
    simpl in SF. rewrite Sz in SF, Hz. rewrite Hc.
    assert (Hij : Forall2 lt [i; j] [length (scipy.tx s0); length (scipy.ty s0)])
      by (repeat constructor; done).
    rewrite (Hz i j Hij), nan_to_zero_item by (by rewrite ?SF).
    apply sanitize_not_nan. }
  split; [apply Hsan|]. split; [apply Hsan|]. split.
  - eapply Hknots; [|exact R7]. by eapply read_field_wf.
  - eapply Hknots; [|exact R8]. by eapply read_field_wf.
Qed.

Lemma new_fields_have_no_nan_witness :
  exists g' F G su sv,
    heap (snd (new (Some "p") example_written)) !! 1 = Some g' /\
    NEMOGrid.U g' = PArray F /\ NEMOGrid.V g' = PArray G /\
    NEMOGrid.interp_u g' = Some su /\ NEMOGrid.interp_v g' = Some sv /\
    Forall (fun v => isnan v = false) (np.data F) /\
    Forall (fun v => isnan v = false) (np.data G) /\
    (forall i j, i < length (scipy.tx su) -> j < length (scipy.ty su) ->
       isnan (np.item (scipy.c su) [i; j]) = false) /\
    (forall i j, i < length (scipy.tx sv) -> j < length (scipy.ty sv) ->
       isnan (np.item (scipy.c sv) [i; j]) = false).
Proof.
  apply (new_fields_have_no_nan "p" example_written 1).
  - discriminate.
  - vm_compute. reflexivity.
Defined.

(** *** What construction needs of the files *)

Lemma build_rectilinear x y z s : scipy.build x y z = Ok s -> rectilinear s.
Proof.
  intros H. apply build_ok in H as (_ & _ & Ix & Iy & Lx & Ly & _).
  split; [done|]. split; [done|]. split.
  - intros i a b Ha Hb. apply (increasing_lt _ i (S i) a b Ix Ha Hb). lia.
  - intros j a b Ha Hb. apply (increasing_lt _ j (S j) a b Iy Ha Hb). lia.
Qed.

Lemma interpolator_needs lat lon F s :
  interpolator lat lon F = Ok s ->
  rectilinear s /\ np.shape F = [length (scipy.tx s); length (scipy.ty s)].
Proof.
  intros H. unfold interpolator in H.
  apply bind_Ok in H as (x & H1 & H). apply bind_Ok in H as (y & H2 & H).
  apply bind_Ok in H as (z & H3 & H). split; [by eapply build_rectilinear|].
  apply build_ok in H as (_ & _ & _ & _ & _ & _ & Sz & _).
  apply getitem_plane in H3 as [SF _]; [|by rewrite Sz]. by rewrite SF.
Qed.

(** Construction from a file pair succeeds only on rectilinear lattices:
    column 0 of each latitude lattice and row 0 of each longitude lattice
    have at least two entries and increase strictly, and each field has one
    row per latitude and one column per longitude so read. *)
Theorem new_needs_rectilinear_lattices p w s :
  p <> "" -> fst (new (Some p) w) = Ok s ->
  exists g' F G su sv,
    heap (snd (new (Some p) w)) !! s = Some g' /\
    NEMOGrid.U g' = PArray F /\ NEMOGrid.V g' = PArray G /\
    NEMOGrid.interp_u g' = Some su /\ NEMOGrid.interp_v g' = Some sv /\
    on_lattice (NEMOGrid.lat_u g') (NEMOGrid.lon_u g') su /\
    on_lattice (NEMOGrid.lat_v g') (NEMOGrid.lon_v g') sv /\
    rectilinear su /\ rectilinear sv /\
    np.shape F = [length (scipy.tx su); length (scipy.ty su)] /\
    np.shape G = [length (scipy.tx sv); length (scipy.ty sv)].
Proof.
  intros Hp Hn.
  destruct (new_ok _ _ _ Hp Hn) as (dsU & dsV & g' & FU & FV & Hd & -> & Hs).
  apply decode_ok in Hd
    as (lon_u' & lat_u' & lon_v' & lat_v' & Fu & Fv & su & sv
        & R1 & R2 & R3 & R4 & R5 & R6 & R7 & R8 & ->).
  destruct (interpolator_needs _ _ _ _ R7) as [N1 N2].
  destruct (interpolator_needs _ _ _ _ R8) as [N3 N4].
  eexists _, (np.nan_to_zero Fu), (np.nan_to_zero Fv), su, sv.
  rewrite Hs. simpl. rewrite lookup_last_app.
  split; [reflexivity|]. simpl.
  split; [done|]. split; [done|]. split; [done|]. split; [done|].
  split; [by eapply interpolator_lattice|].
  split; [by eapply interpolator_lattice|]. done.
Qed.

Lemma new_needs_rectilinear_lattices_witness :
  exists g' F G su sv,
    heap (snd (new (Some "p") example_written)) !! 1 = Some g' /\
    NEMOGrid.U g' = PArray F /\ NEMOGrid.V g' = PArray G /\
    NEMOGrid.interp_u g' = Some su /\ NEMOGrid.interp_v g' = Some sv /\
    on_lattice (NEMOGrid.lat_u g') (NEMOGrid.lon_u g') su /\
    on_lattice (NEMOGrid.lat_v g') (NEMOGrid.lon_v g') sv /\
    rectilinear su /\ rectilinear sv /\
    np.shape F = [length (scipy.tx su); length (scipy.ty su)] /\
    np.shape G = [length (scipy.tx sv); length (scipy.ty sv)].
Proof.
  apply (new_needs_rectilinear_lattices "p" example_written 1).
  - discriminate.
  - vm_compute. reflexivity.
Defined.

(** *** When [write] succeeds *)






















(** *** When the files [write] made can be read back *)











